(** * Space-weather nowcasting pipeline: feature codec, window builder,
      baseline trainer, model registry and forecast engine.

    Shallow embedding of [ml/train/dataset_builder.py],
    [ml/train/train_unet.py] and [ml/infer/infer_server.py].

    Python [float] is IEEE 754 binary64 with round-to-nearest-even, which is
    what Rocq's primitive [float] is, so float arithmetic is modelled by
    the primitive operations and evaluates inside Rocq.  Python [int] is [Z].
    Exceptions are explicit: fallible code returns [result]. *)

From Stdlib Require Import ZArith List Bool String Ascii Lia.
From Stdlib Require Import Floats.
Import ListNotations.

Set Warnings "-inexact-float".

Local Open Scope Z_scope.

(** ** Exceptions *)

Inductive exn : Type :=
| IndexError
| OverflowError
| ValueError
| JSONDecodeError.

Inductive result (A : Type) : Type :=
| Ok (a : A)
| Raise (e : exn).

Arguments Ok {A} a.
Arguments Raise {A} e.

Definition bind {A B : Type} (r : result A) (k : A -> result B) : result B :=
  match r with
  | Ok a => k a
  | Raise e => Raise e
  end.

Notation "x <- r ;; k" := (bind r (fun x => k))
  (at level 61, r at next level, right associativity).

(** ** Python builtins used by the sources *)

Module Py.

(** [d.get(key, default)] on an optional entry. *)
Definition get {A : Type} (entry : option A) (default : A) : A :=
  match entry with
  | Some v => v
  | None => default
  end.

(** [max(a, b)] on floats: the first argument is kept unless the second
    compares strictly greater. *)
Definition max (a b : float) : float :=
  if PrimFloat.ltb a b then b else a.

(** [min(a, b)] on floats: the first argument is kept unless the second
    compares strictly smaller. *)
Definition min (a b : float) : float :=
  if PrimFloat.ltb b a then b else a.

(** [float(n)] for an [int] below [2^63] (loop indices and list
    lengths): the nearest binary64 value. *)
Definition float_of_int (n : Z) : float :=
  PrimFloat.of_uint63 (Uint63.of_Z n).

(** [len(l)]. *)
Definition len {A : Type} (l : list A) : Z := Z.of_nat (List.length l).

(** [range(a, b)]. *)
Definition range (a b : Z) : list Z :=
  map (fun k => a + Z.of_nat k) (seq 0 (Z.to_nat (b - a))).

(** A slice bound, normalised the way [l[lo:hi]] does it: a negative
    bound counts from the end, and every bound is clipped to [0, n]. *)
Definition slice_bound (n i : Z) : Z :=
  if i <? 0 then Z.max 0 (i + n) else Z.min i n.

(** [l[lo:hi]]. *)
Definition slice {A : Type} (l : list A) (lo hi : Z) : list A :=
  let n := len l in
  let lo' := slice_bound n lo in
  let hi' := slice_bound n hi in
  firstn (Z.to_nat (hi' - lo')) (skipn (Z.to_nat lo') l).

(** [l[i]]: a negative index counts from the end; out of range raises. *)
Definition getitem {A : Type} (l : list A) (i : Z) : result A :=
  let j := if i <? 0 then i + len l else i in
  if j <? 0 then Raise IndexError
  else match nth_error l (Z.to_nat j) with
       | Some v => Ok v
       | None => Raise IndexError
       end.

(** [sum(l)] on floats as CPython computes it up to version 3.11: the
    accumulator starts at [0] and adds the items from left to right. *)
Definition sum (l : list float) : float :=
  fold_left PrimFloat.add l 0%float.

(** [sum(l)] on floats as CPython computes it from version 3.12 on: the
    first item is added to [0], the others go through Neumaier's
    compensated addition, and the compensation is added at the end when
    it is finite and not zero. *)
Fixpoint sum_compensated_loop (l : list float) (f c : float) : float :=
  match l with
  | [] =>
      if PrimFloat.eqb c 0%float || negb (PrimFloat.is_finite c) then f
      else PrimFloat.add f c
  | x :: l' =>
      let t := PrimFloat.add f x in
      let c' :=
        if PrimFloat.leb (PrimFloat.abs x) (PrimFloat.abs f)
        then PrimFloat.add c (PrimFloat.add (PrimFloat.sub f t) x)
        else PrimFloat.add c (PrimFloat.add (PrimFloat.sub x t) f) in
      sum_compensated_loop l' t c'
  end.

Definition sum_compensated (l : list float) : float :=
  match l with
  | [] => 0%float
  | x :: l' => sum_compensated_loop l' (PrimFloat.add 0%float x) 0%float
  end.

(** [v ** 2] on a float, with the square rounded correctly: a finite [v]
    whose square is out of range raises [OverflowError] (where [v * v]
    gives [inf]).  The interpreter takes the square from the C library's
    [pow], which may differ from the correctly rounded one in the last
    bit; where the exact value matters, [baseline_train_with] leaves the
    function open. *)
Definition pow2 (v : float) : result float :=
  let r := PrimFloat.mul v v in
  if PrimFloat.is_infinity r && negb (PrimFloat.is_infinity v)
  then Raise OverflowError
  else Ok r.

(** [math.sqrt(v)]: a negative argument raises [ValueError]. *)
Definition math_sqrt (v : float) : result float :=
  if PrimFloat.ltb v 0%float then Raise ValueError
  else Ok (PrimFloat.sqrt v).

(** [c.isspace()]; a character of a [string] is a code point below 256,
    and the whitespace among those is 9-13, 28-32, 133 and 160. *)
Definition isspace (c : ascii) : bool :=
  let n := N.of_nat (nat_of_ascii c) in
  (((9 <=? n) && (n <=? 13)) || ((28 <=? n) && (n <=? 32))
   || (n =? 133) || (n =? 160))%N.

Fixpoint lstrip (s : string) : string :=
  match s with
  | EmptyString => EmptyString
  | String c rest => if isspace c then lstrip rest else s
  end.

Fixpoint rstrip (s : string) : string :=
  match s with
  | EmptyString => EmptyString
  | String c rest =>
      match rstrip rest with
      | EmptyString => if isspace c then EmptyString else String c EmptyString
      | rest' => String c rest'
      end
  end.

(** [s.strip()]. *)
Definition strip (s : string) : string := rstrip (lstrip s).

End Py.

(** ** Data model

    A JSON object is a record of optional entries: [None] is an absent
    key, so that every [.get(key, default)] of the sources has its
    default written out.  Numeric entries are the values [float(...)]
    yields for them. *)

Module SolarWind.
Record t : Type := mk { speed : option float; density : option float }.
Definition empty : t := mk None None.
End SolarWind.

Module MagneticField.
Record t : Type :=
  mk { x : option float; y : option float; z : option float; bt : option float }.
Definition empty : t := mk None None None None.
End MagneticField.

Module ElectricField.
Record t : Type := mk { ey : option float }.
Definition empty : t := mk None.
End ElectricField.

Module Coupling.
Record t : Type := mk { newell : option float; epsilon : option float }.
Definition empty : t := mk None None.
End Coupling.

Module Indices.
Record t : Type := mk { kp : option float; dst : option float }.
Definition empty : t := mk None None.
End Indices.

Module Point.
Record t : Type :=
  mk { timestamp : option string;
       solarWind : option SolarWind.t;
       magneticField : option MagneticField.t;
       electricField : option ElectricField.t;
       coupling : option Coupling.t;
       indices : option Indices.t }.
(** The object [{}]. *)
Definition empty : t := mk None None None None None None.
End Point.

Module WindowExample.
Record t : Type :=
  mk { x : list (list float); y : list float; timestamp : string }.
End WindowExample.

(** ** Feature codec and window builder ([dataset_builder.py]) *)

Definition feature_vector (point : Point.t) : list float :=
  let sw := Py.get (Point.solarWind point) SolarWind.empty in
  let b := Py.get (Point.magneticField point) MagneticField.empty in
  let e := Py.get (Point.electricField point) ElectricField.empty in
  let c := Py.get (Point.coupling point) Coupling.empty in
  let i := Py.get (Point.indices point) Indices.empty in
  [ Py.get (SolarWind.speed sw) 0.0;
    Py.get (SolarWind.density sw) 0.0;
    Py.get (MagneticField.x b) 0.0;
    Py.get (MagneticField.y b) 0.0;
    Py.get (MagneticField.z b) 0.0;
    Py.get (MagneticField.bt b) 0.0;
    Py.get (ElectricField.ey e) 0.0;
    Py.get (Coupling.newell c) 0.0;
    Py.get (Coupling.epsilon c) 0.0;
    Py.get (Indices.kp i) 0.0;
    Py.get (Indices.dst i) 0.0 ]%float.

Definition target_vector (point : Point.t) : list float :=
  let i := Py.get (Point.indices point) Indices.empty in
  let kp := Py.get (Indices.kp i) 0.0%float in
  let dst := Py.get (Indices.dst i) 0.0%float in
  let perturb := Py.max 0.0 (kp * 10.0 - dst * 0.1)%float in
  let aurora :=
    Py.min 1.0 (Py.max 0.0 (kp / 9.0 + Py.max 0.0 (- dst) / 400.0))%float in
  [perturb; aurora].

(** The body of the [for end in range(...)] loop of [build_examples],
    run over the remaining values of [end] with the list built so far. *)
Fixpoint build_examples_loop (points : list Point.t)
    (input_steps horizon_steps : Z) (ends : list Z)
    (examples : list WindowExample.t) : result (list WindowExample.t) :=
  match ends with
  | [] => Ok examples
  | end_ :: ends' =>
      let context := Py.slice points (end_ - input_steps) end_ in
      future <- Py.getitem points (end_ + horizon_steps - 1) ;;
      let x := map feature_vector context in
      let y := target_vector future in
      build_examples_loop points input_steps horizon_steps ends'
        (examples ++
           [WindowExample.mk x y (Py.get (Point.timestamp future) EmptyString)])
  end.

Definition build_examples (points : list Point.t)
    (input_steps horizon_steps : Z) : result (list WindowExample.t) :=
  build_examples_loop points input_steps horizon_steps
    (Py.range input_steps (Py.len points - horizon_steps)) [].

(** ** Baseline trainer and model registry ([train_unet.py]) *)

(** A list comprehension or generator whose element expression can raise:
    the elements are computed from left to right and the first exception
    ends the evaluation. *)
Fixpoint comprehension {A B : Type} (f : A -> result B) (l : list A)
  : result (list B) :=
  match l with
  | [] => Ok []
  | a :: l' =>
      b <- f a ;;
      bs <- comprehension f l' ;;
      Ok (b :: bs)
  end.

Module ModelMetrics.
(** [loss = None] is the JSON [null]; [message] and [predict_mean] are
    keys that one of the two result shapes does not have. *)
Record t : Type :=
  mk { loss : option float;
       samples : Z;
       message : option string;
       predict_mean : option (list float) }.
End ModelMetrics.

Definition baseline_train (rows : list WindowExample.t)
  : result ModelMetrics.t :=
  match rows with
  | [] => Ok (ModelMetrics.mk None 0 (Some "No data"%string) None)
  | _ :: _ =>
      y0 <- comprehension (fun row => Py.getitem (WindowExample.y row) 0) rows ;;
      y1 <- comprehension (fun row => Py.getitem (WindowExample.y row) 1) rows ;;
      let mean0 := (Py.sum y0 / Py.float_of_int (Py.len y0))%float in
      let mean1 := (Py.sum y1 / Py.float_of_int (Py.len y1))%float in
      sq0 <- comprehension (fun v => Py.pow2 (v - mean0)%float) y0 ;;
      let var0 := (Py.sum sq0 / Py.float_of_int (Py.len y0))%float in
      sq1 <- comprehension (fun v => Py.pow2 (v - mean1)%float) y1 ;;
      let var1 := (Py.sum sq1 / Py.float_of_int (Py.len y1))%float in
      loss <- Py.math_sqrt (var0 + var1)%float ;;
      Ok (ModelMetrics.mk (Some loss) (Py.len rows) None (Some [mean0; mean1]))
  end.

(** [baseline_train] again, with the two library functions whose last bit
    depends on the interpreter and its C library left open: [pow2] is
    [v ** 2] and [sum] is the builtin [sum]. *)
Section BaselineTrain.
Variable pow2 : float -> result float.
Variable sum : list float -> float.

Definition baseline_train_with (rows : list WindowExample.t)
  : result ModelMetrics.t :=
  match rows with
  | [] => Ok (ModelMetrics.mk None 0 (Some "No data"%string) None)
  | _ :: _ =>
      y0 <- comprehension (fun row => Py.getitem (WindowExample.y row) 0) rows ;;
      y1 <- comprehension (fun row => Py.getitem (WindowExample.y row) 1) rows ;;
      let mean0 := (sum y0 / Py.float_of_int (Py.len y0))%float in
      let mean1 := (sum y1 / Py.float_of_int (Py.len y1))%float in
      sq0 <- comprehension (fun v => pow2 (v - mean0)%float) y0 ;;
      let var0 := (sum sq0 / Py.float_of_int (Py.len y0))%float in
      sq1 <- comprehension (fun v => pow2 (v - mean1)%float) y1 ;;
      let var1 := (sum sq1 / Py.float_of_int (Py.len y1))%float in
      loss <- Py.math_sqrt (var0 + var1)%float ;;
      Ok (ModelMetrics.mk (Some loss) (Py.len rows) None (Some [mean0; mean1]))
  end.
End BaselineTrain.

(** A [datetime] is the count of microseconds since the epoch; its
    [isoformat()] string is kept as that value. *)
Definition datetime : Type := Z.

Definition timedelta_minutes (minutes : Z) : Z := minutes * 60000000.

Module ModelRecord.
Record t : Type :=
  mk { version : string;
       trained_at : datetime;
       epochs : Z;
       metrics : ModelMetrics.t;
       dataset : string;
       status : string }.
End ModelRecord.

Module Registry.
(** The registry document; [models = None] is a document without the
    key, which [setdefault] then creates. *)
Record t : Type := mk { models : option (list ModelRecord.t) }.
End Registry.

(** What a JSON file on disk holds: text [json.loads] rejects, or the
    document it decodes to ([json.dumps] followed by [json.loads] gives
    the document back). *)
Inductive json_file : Type :=
| Undecodable
| Document (doc : Registry.t).

(** Lines 56-59 of [update_registry]: the document of the file, or the
    default one when the path does not exist. *)
Definition read_registry (file : option json_file) : result Registry.t :=
  match file with
  | Some (Document doc) => Ok doc
  | Some Undecodable => Raise JSONDecodeError
  | None => Ok (Registry.mk (Some []))
  end.

(** [update_registry], on the content of [registry_path] ([None] when the
    path does not exist); the result is the content after [write_text].
    Creating the parent directory leaves the content untouched. *)
Definition update_registry (file : option json_file)
    (model_entry : ModelRecord.t) : result (option json_file) :=
  registry <- read_registry file ;;
  let models := Py.get (Registry.models registry) [] ++ [model_entry] in
  Ok (Some (Document (Registry.mk (Some models)))).

Section LoadJsonl.
(** [json.loads] on one line of the dataset file. *)
Variable Row : Type.
Variable json_loads : string -> result Row.

Fixpoint load_jsonl_loop (lines : list string) (rows : list Row)
  : result (list Row) :=
  match lines with
  | [] => Ok rows
  | line :: lines' =>
      let line := Py.strip line in
      if String.eqb line EmptyString then load_jsonl_loop lines' rows
      else
        row <- json_loads line ;;
        load_jsonl_loop lines' (rows ++ [row])
  end.

(** [load_jsonl], on the lines of the file at [path] ([None] when the
    path does not exist). *)
Definition load_jsonl (file : option (list string)) : result (list Row) :=
  match file with
  | None => Ok []
  | Some lines => load_jsonl_loop lines []
  end.
End LoadJsonl.

Arguments load_jsonl_loop {Row} json_loads lines rows.
Arguments load_jsonl {Row} json_loads file.

Module Args.
(** The parsed command line of the train command. *)
Record t : Type :=
  mk { dataset : string; registry : string; model_version : string; epochs : Z }.
End Args.

Module Files.
(** The two files the train command touches, taken to be different
    paths: the lines of the dataset file and the content of the registry
    file, [None] for a path that does not exist. *)
Record t : Type :=
  mk { dataset_file : option (list string);
       registry_file : option json_file }.
End Files.

(** [main] of [train_unet.py]: [now] is what [datetime.now] returns,
    [Args.dataset] is the path as [str(dataset_path)] renders it; the
    result is the files afterwards and the record that is printed. *)
Definition main (json_loads : string -> result WindowExample.t)
    (args : Args.t) (now : datetime) (fs : Files.t)
  : result (Files.t * ModelRecord.t) :=
  rows <- load_jsonl json_loads (Files.dataset_file fs) ;;
  metrics <- baseline_train rows ;;
  let model_entry :=
    ModelRecord.mk (Args.model_version args) now (Args.epochs args)
      metrics (Args.dataset args) "ready"%string in
  registry_file' <- update_registry (Files.registry_file fs) model_entry ;;
  Ok (Files.mk (Files.dataset_file fs) registry_file', model_entry).

(** ** Forecast engine ([infer_server.py]) *)

Definition MODEL_VERSION : string := "unet-baseline-v1"%string.

Module Payload.
Record t : Type :=
  mk { horizonMinutes : option Z; sequence : option (list Point.t) }.
End Payload.

Module Prediction.
Record t : Type :=
  mk { timestamp : datetime;
       geomagneticPerturbation : float;
       auroraIntensity : float;
       confidence : float }.
End Prediction.

Module Forecast.
Record t : Type :=
  mk { modelVersion : string;
       generatedAt : datetime;
       horizonMinutes : Z;
       predictions : list Prediction.t }.
End Forecast.

(** [infer]; [now] is what [datetime.now] returns. *)
Definition infer (payload : Payload.t) (now : datetime) : Forecast.t :=
  let horizon := Py.get (Payload.horizonMinutes payload) 60 in
  let sequence := Py.get (Payload.sequence payload) [] in
  let latest := last sequence Point.empty in
  let sw := Py.get (Point.solarWind latest) SolarWind.empty in
  let b := Py.get (Point.magneticField latest) MagneticField.empty in
  let idx := Py.get (Point.indices latest) Indices.empty in
  let coupling := Py.get (Point.coupling latest) Coupling.empty in
  let speed := Py.get (SolarWind.speed sw) 400.0%float in
  let density := Py.get (SolarWind.density sw) 5.0%float in
  let bz := Py.get (MagneticField.z b) 0.0%float in
  let kp := Py.get (Indices.kp idx) 2.0%float in
  let newell := Py.get (Coupling.newell coupling) 0.0%float in
  let steps := Z.max 1 (Z.min 24 (horizon / 5)) in
  let predictions :=
    map (fun i =>
           let minutes := (i + 1) * 5 in
           let driver :=
             (Py.max 0.0 (- bz) * 0.45 + (speed - 350.0) * 0.004
              + density * 0.05 + newell / 8000.0)%float in
           let perturb := (kp * 8.0 + driver * 12.0)%float in
           let aurora :=
             Py.max 0.0 (Py.min 1.0 (kp / 9.0 * 0.7 + driver * 0.03))%float in
           Prediction.mk (now + timedelta_minutes minutes) perturb aurora
             (Py.max 0.35 (Py.min 0.95 (0.9 - Py.float_of_int i * 0.02))%float))
        (Py.range 0 steps) in
  Forecast.mk MODEL_VERSION now horizon predictions.

(** ** Notions used by the statements *)

(** The timestamp an example takes from a point: [point.get("timestamp", "")]. *)
Definition point_timestamp (point : Point.t) : string :=
  Py.get (Point.timestamp point) EmptyString.

(** The example the window builder makes for a given [end]. *)
Definition example_of (points : list Point.t) (input_steps horizon_steps end_ : Z)
  : WindowExample.t :=
  let future := nth (Z.to_nat (end_ + horizon_steps - 1)) points Point.empty in
  WindowExample.mk
    (map feature_vector (Py.slice points (end_ - input_steps) end_))
    (target_vector future)
    (point_timestamp future).

(** Timestamps are strings, compared the way Python compares [str]:
    lexicographically by code point.  A list of them is non-decreasing
    when each one is at most its successor. *)
Definition nondecreasing (l : list string) : Prop :=
  forall i a b,
    nth_error l i = Some a -> nth_error l (S i) = Some b ->
    String.leb a b = true.

(** Two small feeds of bare points that carry only a timestamp: one in
    chronological order, one in reverse order. *)
Definition stamped (ts : string) : Point.t :=
  Point.mk (Some ts) None None None None None.

Definition chronological_feed : list Point.t :=
  map stamped
    ["2024-05-10T00:00:00Z"; "2024-05-10T00:00:05Z";
     "2024-05-10T00:00:10Z"; "2024-05-10T00:00:15Z"]%string.

Definition reversed_feed : list Point.t := rev chronological_feed.

(** [clamp(v, lo, hi)] of the specification, on floats and on integers. *)
Definition clamp (v lo hi : float) : float := Py.min hi (Py.max lo v).

Definition clamp_int (v lo hi : Z) : Z :=
  if v <? lo then lo else if hi <? v then hi else v.

(** The two indices of a point, [0.0] when the entry or the whole
    [indices] group is absent. *)
Definition index_kp (point : Point.t) : float :=
  match Point.indices point with
  | Some i => match Indices.kp i with Some v => v | None => 0.0%float end
  | None => 0.0%float
  end.

Definition index_dst (point : Point.t) : float :=
  match Point.indices point with
  | Some i => match Indices.dst i with Some v => v | None => 0.0%float end
  | None => 0.0%float
  end.

(** The target formula of the specification. *)
Definition targets_formula (kp dst : float) : list float :=
  [ Py.max 0 (kp * 10 - dst * 0.1);
    clamp (kp / 9 + Py.max 0 (- dst) / 400) 0 1 ]%float.

(** The point [{"indices": {"kp": kp, "dst": dst}}]. *)
Definition indices_point (kp dst : float) : Point.t :=
  Point.mk None None None None None (Some (Indices.mk (Some kp) (Some dst))).

(** A point that spells out, for each field the forecast engine reads, the
    value given. *)
Definition engine_point (speed density bz kp newell : float) : Point.t :=
  Point.mk None
    (Some (SolarWind.mk (Some speed) (Some density)))
    (Some (MagneticField.mk None None (Some bz) None))
    None
    (Some (Coupling.mk (Some newell) None))
    (Some (Indices.mk (Some kp) None)).

(** The confidence the specification gives to step [i]. *)
Definition confidence_formula (i : Z) : float :=
  clamp (0.9 - Py.float_of_int i * 0.02) 0.35 0.95.

(** The characters ["\n"] and ["\t"]. *)
Definition newline : ascii := ascii_of_nat 10.
Definition tab : ascii := ascii_of_nat 9.

(** The result of the trainer on no data. *)
Definition no_data_metrics : ModelMetrics.t :=
  ModelMetrics.mk None 0 (Some "No data"%string) None.

(** A line the dataset loader skips: nothing is left of it after
    [strip()]. *)
Definition blank (line : string) : bool :=
  String.eqb (Py.strip line) EmptyString.

(** The models of a registry file that is missing or holds a document. *)
Definition models_of (registry : option Registry.t) : list ModelRecord.t :=
  match registry with
  | Some doc => Py.get (Registry.models doc) []
  | None => []
  end.

(** The sign of a binary64 value, read on its specification: [has_sign s]
    holds of NaN and of every value whose sign bit is [s]. *)
Definition has_sign (s : bool) (x : spec_float) : Prop :=
  match x with
  | S754_zero s' | S754_infinity s' | S754_finite s' _ _ => s' = s
  | S754_nan => True
  end.

(** A float that is NaN or has a clear sign bit: never below zero. *)
Definition nonneg (v : float) : Prop := has_sign false (Prim2SF v).

(** A positive number or [+infinity]. *)
Definition positive_sf (x : spec_float) : Prop :=
  match x with
  | S754_finite false _ _ | S754_infinity false => True
  | _ => False
  end.

(** A zero or a finite number. *)
Definition finite_sf (x : spec_float) : Prop :=
  match x with
  | S754_zero _ | S754_finite _ _ _ => True
  | _ => False
  end.

(** Component [k] of the targets of the examples: [y0] and [y1] of the
    trainer. *)
Definition component (k : nat) (rows : list WindowExample.t) : list float :=
  map (fun row => nth k (WindowExample.y row) 0%float) rows.

(** Every example carries a target vector of two components. *)
Definition two_targets (rows : list WindowExample.t) : Prop :=
  Forall (fun row => List.length (WindowExample.y row) = 2%nat) rows.

(** Arithmetic mean and population variance (divisor [N]) of the
    specification, in binary64 arithmetic. *)
Definition mean (ys : list float) : float :=
  (Py.sum ys / Py.float_of_int (Py.len ys))%float.

Definition deviation_squares (ys : list float) : list float :=
  map (fun v => ((v - mean ys) * (v - mean ys))%float) ys.

Definition variance (ys : list float) : float :=
  (Py.sum (deviation_squares ys) / Py.float_of_int (Py.len ys))%float.

(** The square of a finite [v] is out of the binary64 range. *)
Definition square_overflows (v : float) : bool :=
  PrimFloat.is_infinity (v * v) && negb (PrimFloat.is_infinity v).

(** No squared deviation from the mean is out of range. *)
Definition squares_in_range (ys : list float) : bool :=
  forallb (fun v => negb (square_overflows (v - mean ys))) ys.

(** What is taken as known of the two library functions of the trainer.
    Of [v ** 2]: the result is never below zero, the only exception is
    [OverflowError], and the square of zero is zero.  Of [sum]: a sum of
    floats none of which is below zero is not below zero, and a sum of
    zeros is zero. *)
Definition square_library (pow2 : float -> result float) : Prop :=
  (forall v r, pow2 v = Ok r -> nonneg r)
  /\ (forall v e, pow2 v = Raise e -> e = OverflowError)
  /\ pow2 0%float = Ok 0%float.

Definition sum_library (sum : list float -> float) : Prop :=
  (forall l, Forall nonneg l -> nonneg (sum l))
  /\ (forall n, sum (repeat 0%float n) = 0%float).

(** An example with the given target and nothing else. *)
Definition target_row (a b : float) : WindowExample.t :=
  WindowExample.mk [] [a; b] EmptyString.

(** ** Notions used by the further properties *)

(** The five fields the forecast engine reads from a point, with the
    defaults [infer] gives them. *)
Definition engine_speed (point : Point.t) : float :=
  Py.get (SolarWind.speed (Py.get (Point.solarWind point) SolarWind.empty)) 400.0%float.

Definition engine_density (point : Point.t) : float :=
  Py.get (SolarWind.density (Py.get (Point.solarWind point) SolarWind.empty)) 5.0%float.

Definition engine_bz (point : Point.t) : float :=
  Py.get (MagneticField.z (Py.get (Point.magneticField point) MagneticField.empty)) 0.0%float.

Definition engine_kp (point : Point.t) : float :=
  Py.get (Indices.kp (Py.get (Point.indices point) Indices.empty)) 2.0%float.

Definition engine_newell (point : Point.t) : float :=
  Py.get (Coupling.newell (Py.get (Point.coupling point) Coupling.empty)) 0.0%float.

(** The predictions of the forecast for a payload. *)
Definition predictions_of (horizonMinutes : option Z)
    (sequence : option (list Point.t)) (now : datetime) : list Prediction.t :=
  Forecast.predictions (infer (Payload.mk horizonMinutes sequence) now).

(** An example reduced to what the trainer reads of it: the first two
    components of its target. *)
Definition first_two_targets (row : WindowExample.t) : WindowExample.t :=
  WindowExample.mk [] (firstn 2 (WindowExample.y row)) EmptyString.

(** A target too short for the trainer. *)
Definition short_target (row : WindowExample.t) : Prop :=
  (List.length (WindowExample.y row) < 2)%nat.

(** [update_registry] called once for each record of a list, in order. *)
Fixpoint update_registry_all (file : option json_file)
    (entries : list ModelRecord.t) : result (option json_file) :=
  match entries with
  | [] => Ok file
  | entry :: entries' =>
      file' <- update_registry file entry ;;
      update_registry_all file' entries'
  end.

(** ** The build command ([main] of [dataset_builder.py]) *)

(** A command returns, or fails with an exception of the given kind. *)
Inductive outcome (E A : Type) : Type :=
| Returns (a : A)
| Throws (e : E).

Arguments Returns {E A} a.
Arguments Throws {E A} e.

(** What can end the build command: the input path does not exist, or an
    exception of the code it runs. *)
Inductive failure : Type :=
| FileNotFoundError
| Raised (e : exn).

Module Feed.
(** The input JSON object; [points = None] is an object without the key. *)
Record t : Type := mk { points : option (list Point.t) }.
End Feed.

(** What the input file holds: text [json.loads] rejects, or the feed
    object it decodes to (a JSON object whose ["points"], when the key is
    there, is a list of telemetry points). *)
Inductive feed_file : Type :=
| FeedUndecodable
| FeedDocument (payload : Feed.t).

Module DatasetBuilder.

Module Args.
Record t : Type :=
  mk { input : string; output : string; input_steps : Z; horizon_steps : Z }.
End Args.

Section Main.
(** [json.dumps] on the object [{x, y, timestamp}] of an example. *)
Variable json_dumps : WindowExample.t -> string.

(** What [main] writes for one example; [json.dumps] emits no line break,
    so each write is one line of the file. *)
Definition line (ex : WindowExample.t) : string :=
  (json_dumps ex ++ String newline EmptyString)%string.

(** [main], on the content of the input path ([None] when it does not
    exist): the lines the output file holds afterwards, which replace
    whatever it held, and the number of examples that is printed.  When
    [main] fails the output file is not opened. *)
Definition main (args : Args.t) (input_file : option feed_file)
  : outcome failure (list string * Z) :=
  match input_file with
  | None => Throws FileNotFoundError
  | Some FeedUndecodable => Throws (Raised JSONDecodeError)
  | Some (FeedDocument payload) =>
      let points := Py.get (Feed.points payload) [] in
      match build_examples points (Args.input_steps args)
              (Args.horizon_steps args) with
      | Raise e => Throws (Raised e)
      | Ok examples => Returns (map line examples, Py.len examples)
      end
  end.
End Main.

End DatasetBuilder.

(** A stand-in for the JSON encoding of examples whose windows hold one
    all-default row and whose target is zero: the timestamp alone. *)
Definition stamp_dumps (ex : WindowExample.t) : string :=
  WindowExample.timestamp ex.

Definition stamp_loads (text : string) : result WindowExample.t :=
  Ok (WindowExample.mk [feature_vector Point.empty]
        (target_vector Point.empty) text).

(** ** The calculator ([astro_calc.py]): the functions built from
    arithmetic and [math.sqrt] *)

Module AstroCalc.

(** [ValueError] with its message, and the [ZeroDivisionError] of a
    float division by zero. *)
Inductive error : Type :=
| ValueError (message : string)
| ZeroDivisionError.

Definition C : float := 2.99792458e8%float.
Definition G : float := 6.67430e-11%float.

(** [math.pi]. *)
Definition pi : float := 3.141592653589793%float.

(** [a / b] on floats: a zero divisor raises. *)
Definition truediv (a b : float) : outcome error float :=
  if PrimFloat.eqb b 0%float then Throws ZeroDivisionError
  else Returns (a / b)%float.

(** [math.sqrt(v)]. *)
Definition math_sqrt (v : float) : outcome error float :=
  if PrimFloat.ltb v 0%float then Throws (ValueError "math domain error")
  else Returns (PrimFloat.sqrt v).

Definition flux_from_luminosity (luminosity_w distance_m : float)
  : outcome error float :=
  if PrimFloat.leb distance_m 0%float
  then Throws (ValueError "distance_m must be > 0")
  else truediv luminosity_w (4.0 * pi * distance_m * distance_m)%float.

Definition luminosity_from_flux (flux_w_m2 distance_m : float)
  : outcome error float :=
  if PrimFloat.leb distance_m 0%float
  then Throws (ValueError "distance_m must be > 0")
  else Returns (flux_w_m2 * (4.0 * pi * distance_m * distance_m))%float.

Definition schwarzschild_radius (mass_kg : float) : outcome error float :=
  if PrimFloat.leb mass_kg 0%float
  then Throws (ValueError "mass_kg must be > 0")
  else truediv (2.0 * G * mass_kg)%float (C * C)%float.

Definition escape_velocity (mass_kg radius_m : float) : outcome error float :=
  if PrimFloat.leb mass_kg 0%float
  then Throws (ValueError "mass_kg must be > 0")
  else if PrimFloat.leb radius_m 0%float
  then Throws (ValueError "radius_m must be > 0")
  else match truediv (2.0 * G * mass_kg)%float radius_m with
       | Returns quotient => math_sqrt quotient
       | Throws e => Throws e
       end.

Definition low_z_velocity (z : float) : outcome error float :=
  if PrimFloat.ltb z 0%float
  then Throws (ValueError "z must be >= 0")
  else Returns (z * C)%float.

End AstroCalc.

(** * Properties *)

(** ** Window builder *)

Lemma range_nil (a b : Z) : b <= a -> Py.range a b = [].
Proof.
  intros Hle. unfold Py.range.
  replace (Z.to_nat (b - a)) with 0%nat by lia. reflexivity.
Qed.

Lemma range_cons (a b : Z) : a < b -> Py.range a b = a :: Py.range (a + 1) b.
Proof.
  intros Hlt. unfold Py.range.
  replace (Z.to_nat (b - a)) with (S (Z.to_nat (b - (a + 1)))) by lia.
  cbn [seq map]. f_equal; [lia|].
  rewrite <- seq_shift, map_map.
  apply map_ext. intros k. lia.
Qed.

Lemma range_length (a b : Z) : List.length (Py.range a b) = Z.to_nat (b - a).
Proof. unfold Py.range. now rewrite length_map, length_seq. Qed.

Lemma range_nth_error (a b : Z) (k : nat) :
  (k < Z.to_nat (b - a))%nat ->
  nth_error (Py.range a b) k = Some (a + Z.of_nat k).
Proof.
  intros Hk. unfold Py.range.
  rewrite nth_error_map, nth_error_seq.
  destruct (Nat.ltb_spec k (Z.to_nat (b - a))); [reflexivity | lia].
Qed.

Lemma getitem_in_range {A : Type} (l : list A) (i : Z) (d : A) :
  0 <= i < Py.len l -> Py.getitem l i = Ok (nth (Z.to_nat i) l d).
Proof.
  intros [Hlo Hhi]. unfold Py.getitem, Py.len in *.
  destruct (Z.ltb_spec i 0); [lia|].
  destruct (Z.ltb_spec i 0); [lia|].
  destruct (nth_error l (Z.to_nat i)) eqn:E.
  - now rewrite (nth_error_nth _ _ d E).
  - apply nth_error_None in E. lia.
Qed.

Lemma slice_window {A : Type} (l : list A) (lo hi : Z) :
  0 <= lo <= hi -> hi <= Py.len l ->
  Py.slice l lo hi = firstn (Z.to_nat (hi - lo)) (skipn (Z.to_nat lo) l)
  /\ List.length (Py.slice l lo hi) = Z.to_nat (hi - lo).
Proof.
  intros Hlo Hhi. unfold Py.slice, Py.slice_bound, Py.len in *.
  destruct (Z.ltb_spec lo 0); [lia|].
  destruct (Z.ltb_spec hi 0); [lia|].
  rewrite !Z.min_l by lia. split; [reflexivity|].
  rewrite length_firstn, length_skipn. lia.
Qed.

Lemma build_examples_loop_range (points : list Point.t) (I H : Z) :
  0 < I -> 0 < H ->
  forall (n : nat) (start : Z) (acc : list WindowExample.t),
    I <= start -> start + Z.of_nat n + H <= Py.len points ->
    build_examples_loop points I H (Py.range start (start + Z.of_nat n)) acc
    = Ok (acc ++ map (example_of points I H) (Py.range start (start + Z.of_nat n))).
Proof.
  intros HI HH. induction n as [|n IH]; intros start acc Hstart Hend.
  - rewrite range_nil by lia. cbn. now rewrite app_nil_r.
  - rewrite range_cons by lia. cbn [build_examples_loop map].
    rewrite (getitem_in_range _ _ Point.empty) by lia. cbn [bind].
    replace (start + Z.of_nat (S n)) with (start + 1 + Z.of_nat n) by lia.
    rewrite IH by lia.
    rewrite <- app_assoc. reflexivity.
Qed.

Lemma build_examples_closed (points : list Point.t) (I H : Z) :
  0 < I -> 0 < H ->
  build_examples points I H
  = Ok (map (example_of points I H) (Py.range I (Py.len points - H))).
Proof.
  intros HI HH. unfold build_examples.
  destruct (Z.le_gt_cases (Py.len points - H) I) as [Hle|Hgt].
  - rewrite range_nil by exact Hle. reflexivity.
  - replace (Py.len points - H)
      with (I + Z.of_nat (Z.to_nat (Py.len points - H - I))) by lia.
    rewrite build_examples_loop_range by lia. reflexivity.
Qed.

Lemma example_of_nth_error (points : list Point.t) (I H : Z) (k : nat) :
  0 < I -> 0 < H -> (k < Z.to_nat (Py.len points - H - I))%nat ->
  nth_error (map (example_of points I H) (Py.range I (Py.len points - H))) k
  = Some (example_of points I H (I + Z.of_nat k)).
Proof.
  intros HI HH Hk.
  rewrite nth_error_map, range_nth_error by lia. reflexivity.
Qed.

Lemma nth_error_Some_lt {A : Type} (l : list A) (i : nat) (a : A) :
  nth_error l i = Some a -> (i < List.length l)%nat.
Proof. intros Hnth. apply nth_error_Some. rewrite Hnth. discriminate. Qed.

Lemma nth_error_in_range {A : Type} (l : list A) (i : nat) (d : A) :
  (i < List.length l)%nat -> nth_error l i = Some (nth i l d).
Proof. intros Hi. now apply nth_error_nth'. Qed.

(** C3. For positive [inputSteps = I] and [horizonSteps = H] and a feed of
    [N] points, [build_examples] returns normally, with exactly
    [max(0, N - I - H)] examples; when [N <= I + H] the result is the
    empty list, not an exception. *)
Theorem build_examples_count (points : list Point.t) (I H : Z) :
  0 < I -> 0 < H ->
  exists examples,
    build_examples points I H = Ok examples
    /\ Py.len examples = Z.max 0 (Py.len points - I - H)
    /\ (Py.len points <= I + H -> examples = []).
Proof.
  intros HI HH. eexists. split; [now apply build_examples_closed|]. split.
  - unfold Py.len at 1. rewrite length_map, range_length. lia.
  - intros Hshort. rewrite range_nil by lia. reflexivity.
Qed.

Lemma build_examples_count_witness :
  exists examples,
    build_examples chronological_feed 1 2 = Ok examples
    /\ Py.len examples = Z.max 0 (Py.len chronological_feed - 1 - 2)
    /\ (Py.len chronological_feed <= 1 + 2 -> examples = []).
Proof. apply (build_examples_count chronological_feed 1 2); lia. Defined.

(** C2, as amended.  For positive [I] and [H], [build_examples] returns one
    example per [end] in [[I, N - H)], in increasing [end] order: example
    number [k] is built at [end = I + k], its [x] is the feature vectors of
    [points[end-I : end]] (a window of exactly [I] points), its [y] is the
    target vector of [points[end+H-1]] and its timestamp is that point's.
    The timestamps of successive examples are non-decreasing whenever the
    timestamps of the feed are: the builder keeps the order of its input
    and never sorts. *)
Theorem build_examples_windows (points : list Point.t) (I H : Z) :
  0 < I -> 0 < H ->
  exists examples,
    build_examples points I H = Ok examples
    /\ List.length examples = Z.to_nat (Py.len points - H - I)
    /\ (forall k, (k < List.length examples)%nat ->
        let end_ := I + Z.of_nat k in
        exists future,
          nth_error points (Z.to_nat (end_ + H - 1)) = Some future
          /\ nth_error examples k
             = Some (WindowExample.mk
                       (map feature_vector (Py.slice points (end_ - I) end_))
                       (target_vector future)
                       (point_timestamp future))
          /\ List.length (Py.slice points (end_ - I) end_) = Z.to_nat I)
    /\ (nondecreasing (map point_timestamp points) ->
        nondecreasing (map WindowExample.timestamp examples)).
Proof.
  intros HI HH. eexists. split; [now apply build_examples_closed|].
  assert (Hlen : List.length (map (example_of points I H)
                                (Py.range I (Py.len points - H)))
                 = Z.to_nat (Py.len points - H - I)).
  { rewrite length_map, range_length. lia. }
  split; [exact Hlen|]. split.
  - intros k Hk end_. rewrite Hlen in Hk.
    exists (nth (Z.to_nat (end_ + H - 1)) points Point.empty).
    unfold Py.len in *. subst end_. split; [|split].
    + apply nth_error_in_range. lia.
    + rewrite example_of_nth_error by (unfold Py.len; lia). reflexivity.
    + destruct (slice_window points (I + Z.of_nat k - I) (I + Z.of_nat k))
        as [_ Hw]; [lia | unfold Py.len; lia |].
      rewrite Hw. f_equal. lia.
  - intros Hsorted k a b Ha Hb.
    assert (Hk : (S k < Z.to_nat (Py.len points - H - I))%nat).
    { rewrite <- Hlen, <- (length_map WindowExample.timestamp).
      apply nth_error_Some. rewrite Hb. discriminate. }
    rewrite nth_error_map, example_of_nth_error in Ha, Hb by lia.
    cbn in Ha, Hb. injection Ha as <-. injection Hb as <-.
    unfold Py.len in *.
    apply (Hsorted (Z.to_nat (I + Z.of_nat k + H - 1))).
    + rewrite nth_error_map, (nth_error_in_range _ _ Point.empty) by lia.
      reflexivity.
    + replace (S (Z.to_nat (I + Z.of_nat k + H - 1)))
        with (Z.to_nat (I + Z.of_nat (S k) + H - 1)) by lia.
      rewrite nth_error_map, (nth_error_in_range _ _ Point.empty) by lia.
      reflexivity.
Qed.

Lemma chronological_feed_nondecreasing :
  nondecreasing (map point_timestamp chronological_feed).
Proof.
  intros i a b Ha Hb.
  do 4 (destruct i as [|i];
        [cbn in Ha, Hb; try discriminate;
         injection Ha as <-; injection Hb as <-; reflexivity|]).
  destruct i; discriminate.
Qed.

Lemma build_examples_windows_witness :
  0 < 1 /\ 0 < 1
  /\ nondecreasing (map point_timestamp chronological_feed)
  /\ exists examples,
       build_examples chronological_feed 1 1 = Ok examples
       /\ List.length examples = 2%nat
       /\ nondecreasing (map WindowExample.timestamp examples).
Proof.
  split; [lia|]. split; [lia|].
  split; [exact chronological_feed_nondecreasing|].
  destruct (build_examples_windows chronological_feed 1 1)
    as (examples & Hrun & Hlen & _ & Hsorted); [lia | lia |].
  exists examples. split; [exact Hrun|]. split; [exact Hlen|].
  apply Hsorted. exact chronological_feed_nondecreasing.
Defined.

(** C2 as stated fails: on a feed whose points are not in chronological
    order the builder's examples come out in that same order, so their
    timestamps decrease. *)
Lemma build_examples_order_counterexample :
  exists examples,
    build_examples reversed_feed 1 1 = Ok examples
    /\ map WindowExample.timestamp examples
       = ["2024-05-10T00:00:10Z"; "2024-05-10T00:00:05Z"]%string
    /\ ~ nondecreasing (map WindowExample.timestamp examples).
Proof.
  eexists. split; [vm_compute; reflexivity|]. split; [reflexivity|].
  intros Hsorted.
  specialize (Hsorted 0%nat _ _ eq_refl eq_refl).
  vm_compute in Hsorted. discriminate.
Qed.

(** ** Feature codec *)

(** C5. For every point, [target_vector] is
    [[max(0, kp*10 - dst*0.1), clamp(kp/9 + max(0, -dst)/400, 0, 1)]] with
    [kp] and [dst] read from [indices] and [0.0] when absent; for
    [{indices: {kp: 5, dst: -50}}] it is [[55.0, 5/9 + 0.125]], whose second
    component lies within [0.0001] of [0.6806]. *)
Theorem target_vector_formula :
  (forall point : Point.t,
      target_vector point = targets_formula (index_kp point) (index_dst point))
  /\ (forall kp dst : float,
        index_kp (indices_point kp dst) = kp
        /\ index_dst (indices_point kp dst) = dst)
  /\ exists aurora : float,
       target_vector (indices_point 5 (-50)) = [55.0%float; aurora]
       /\ aurora = (5 / 9 + 0.125)%float
       /\ (0.6805 <? aurora)%float = true
       /\ (aurora <? 0.6807)%float = true.
Proof.
  split; [|split].
  - intros [ts sw mf ef cp [[[kp|] [dst|]]|]]; reflexivity.
  - intros kp dst. split; reflexivity.
  - exists (5 / 9 + 0.125)%float. repeat split; vm_compute; reflexivity.
Qed.

(** ** Forecast engine *)

(** The number of steps [infer] takes for a payload. *)
Lemma infer_predictions_length (payload : Payload.t) (now : datetime) :
  Py.len (Forecast.predictions (infer payload now))
  = Z.max 1 (Z.min 24 (Py.get (Payload.horizonMinutes payload) 60 / 5)).
Proof.
  unfold infer, Py.len. cbn [Forecast.predictions].
  rewrite length_map, range_length. lia.
Qed.

Lemma clamp_int_max_min (v lo hi : Z) :
  lo <= hi -> Z.max lo (Z.min hi v) = clamp_int v lo hi.
Proof.
  intros Hle. unfold clamp_int.
  destruct (Z.ltb_spec v lo); [lia|].
  destruct (Z.ltb_spec hi v); lia.
Qed.

(** C6. For every integer [horizonMinutes] (60 when the payload has none)
    the forecast has exactly [clamp(horizonMinutes // 5, 1, 24)]
    predictions: 12 for 60, 24 for 1000, and between 1 and 24 for every
    input, non-positive ones included. *)
Theorem infer_step_count :
  (forall (horizonMinutes : option Z) sequence now,
      let n := Py.len (Forecast.predictions
                         (infer (Payload.mk horizonMinutes sequence) now)) in
      n = clamp_int (Py.get horizonMinutes 60 / 5) 1 24 /\ 1 <= n <= 24)
  /\ (forall sequence now,
        Py.len (Forecast.predictions
                  (infer (Payload.mk (Some 60) sequence) now)) = 12)
  /\ (forall sequence now,
        Py.len (Forecast.predictions
                  (infer (Payload.mk (Some 1000) sequence) now)) = 24).
Proof.
  split; [|split].
  - intros h sequence now n. subst n.
    rewrite infer_predictions_length, <- clamp_int_max_min by lia.
    cbn [Payload.horizonMinutes]. lia.
  - intros. rewrite infer_predictions_length. reflexivity.
  - intros. rewrite infer_predictions_length. reflexivity.
Qed.

(** The confidence [infer] computes at step [i], for the 24 steps a
    forecast can have: it is the specification's clamp, it lies in
    [[0.35, 0.95]], and the next step's is not larger. *)
Lemma confidence_steps (i : nat) :
  (i < 24)%nat ->
  let c (k : nat) :=
    Py.max 0.35 (Py.min 0.95 (0.9 - Py.float_of_int (Z.of_nat k) * 0.02))%float in
  c i = confidence_formula (Z.of_nat i)
  /\ (0.35 <=? c i)%float = true
  /\ (c i <=? 0.95)%float = true
  /\ (c (S i) <=? c i)%float = true.
Proof.
  intros Hi.
  do 24 (destruct i as [|i]; [vm_compute; auto|]).
  lia.
Qed.

(** The predictions of a forecast, step by step. *)
Lemma infer_prediction_at (payload : Payload.t) (now : datetime) (i : nat)
    (p : Prediction.t) :
  nth_error (Forecast.predictions (infer payload now)) i = Some p ->
  (i < 24)%nat
  /\ Prediction.timestamp p = now + timedelta_minutes ((Z.of_nat i + 1) * 5)
  /\ Prediction.confidence p
     = Py.max 0.35 (Py.min 0.95 (0.9 - Py.float_of_int (Z.of_nat i) * 0.02))%float.
Proof.
  unfold infer. cbn [Forecast.predictions].
  set (steps := Z.max 1 (Z.min 24 _)). intros Hp.
  pose proof (nth_error_Some_lt _ _ _ Hp) as Hi.
  rewrite length_map, range_length in Hi.
  rewrite nth_error_map, range_nth_error in Hp by exact Hi.
  cbn in Hp. injection Hp as <-. cbn. repeat split. lia.
Qed.

(** C7. In every forecast, prediction [i] has confidence
    [clamp(0.9 - i*0.02, 0.35, 0.95)]; that value lies in [[0.35, 0.95]],
    and the confidence of prediction [i+1], when there is one, is at most
    that of prediction [i]. *)
Theorem infer_confidence (payload : Payload.t) (now : datetime) (i : nat)
    (p : Prediction.t) :
  nth_error (Forecast.predictions (infer payload now)) i = Some p ->
  Prediction.confidence p = confidence_formula (Z.of_nat i)
  /\ (0.35 <=? Prediction.confidence p)%float = true
  /\ (Prediction.confidence p <=? 0.95)%float = true
  /\ (forall q,
        nth_error (Forecast.predictions (infer payload now)) (S i) = Some q ->
        (Prediction.confidence q <=? Prediction.confidence p)%float = true).
Proof.
  intros Hp.
  destruct (infer_prediction_at _ _ _ _ Hp) as (Hi & _ & Hc).
  destruct (confidence_steps i Hi) as (Hformula & Hlo & Hhi & Hnext).
  cbv beta in *. rewrite Hc. repeat split; try assumption.
  intros q Hq.
  destruct (infer_prediction_at _ _ _ _ Hq) as (_ & _ & Hcq).
  rewrite Hcq. exact Hnext.
Qed.

Lemma infer_confidence_witness :
  exists p q,
    nth_error (Forecast.predictions
                 (infer (Payload.mk (Some 60) (Some [])) 0)) 3 = Some p
    /\ nth_error (Forecast.predictions
                    (infer (Payload.mk (Some 60) (Some [])) 0)) 4 = Some q
    /\ Prediction.confidence p = confidence_formula 3
    /\ (Prediction.confidence q <=? Prediction.confidence p)%float = true.
Proof.
  eexists. eexists.
  split; [vm_compute; reflexivity|]. split; [vm_compute; reflexivity|].
  destruct (infer_confidence (Payload.mk (Some 60) (Some [])) 0 3 _ eq_refl)
    as (Hformula & _ & _ & Hnext).
  split; [exact Hformula|]. apply Hnext. reflexivity.
Defined.

(** C9. Within one forecast every prediction carries the same
    [geomagneticPerturbation] and the same [auroraIntensity]: the
    predictions are the steps [0 .. n-1], and step [i] differs from the
    others only by its timestamp [now + (i+1)*5] minutes and its
    confidence. *)
Theorem infer_predictions_constant (payload : Payload.t) (now : datetime) :
  exists perturb aurora : float,
    Forecast.predictions (infer payload now)
    = map (fun i => Prediction.mk (now + timedelta_minutes ((i + 1) * 5))
                      perturb aurora (confidence_formula i))
        (Py.range 0 (Py.len (Forecast.predictions (infer payload now))))
    /\ Forall (fun p => Prediction.geomagneticPerturbation p = perturb
                        /\ Prediction.auroraIntensity p = aurora)
         (Forecast.predictions (infer payload now)).
Proof.
  rewrite infer_predictions_length.
  unfold infer. cbn [Forecast.predictions].
  set (steps := Z.max 1 (Z.min 24 _)).
  eexists. eexists. split.
  - apply map_ext_in. intros i Hi.
    unfold Py.range in Hi. apply in_map_iff in Hi.
    destruct Hi as (k & <- & Hk). apply in_seq in Hk.
    f_equal. rewrite Z.add_0_l.
    apply (confidence_steps k). lia.
  - apply Forall_forall. intros p Hp.
    apply in_map_iff in Hp. destruct Hp as (i & <- & _).
    split; reflexivity.
Qed.

(** C1, as amended.  With an empty telemetry sequence (or none at all),
    for every [horizonMinutes] and every call time, [infer] returns the
    forecast it returns for the single point whose fields are the engine's
    own defaults: speed 400.0, density 5.0, bz 0.0, kp 2.0, newell 0.0. *)
Theorem infer_empty_sequence (horizonMinutes : option Z) (now : datetime) :
  infer (Payload.mk horizonMinutes (Some [])) now
  = infer (Payload.mk horizonMinutes (Some [engine_point 400 5 0 2 0])) now
  /\ infer (Payload.mk horizonMinutes None) now
     = infer (Payload.mk horizonMinutes (Some [])) now.
Proof. split; reflexivity. Qed.

(** C1 as stated fails: the forecast for an empty sequence is not the one
    computed from a point whose fields are all [0.0]; its perturbation is
    positive (about 21.4) where the all-zero point gives a negative one. *)
Lemma infer_empty_sequence_counterexample :
  infer (Payload.mk (Some 60) (Some [])) 0
  <> infer (Payload.mk (Some 60) (Some [engine_point 0 0 0 0 0])) 0.
Proof.
  intros Heq.
  apply (f_equal (fun forecast =>
                    match Forecast.predictions forecast with
                    | p :: _ => (0 <? Prediction.geomagneticPerturbation p)%float
                    | [] => false
                    end)) in Heq.
  vm_compute in Heq. discriminate.
Qed.

(** ** Model registry *)

(** C8. Reading the registry gives [{models: []}] when the file is
    missing and the stored document when there is one; [update_registry]
    puts the record at the end of [models] and writes the whole document
    back; so from a missing file, appending [r1] and then [r2] leaves a
    registry whose models are exactly [[r1, r2]]. *)
Theorem registry_append :
  read_registry None = Ok (Registry.mk (Some []))
  /\ (forall doc, read_registry (Some (Document doc)) = Ok doc)
  /\ (forall (registry : option Registry.t) (r : ModelRecord.t),
        update_registry (option_map Document registry) r
        = Ok (Some (Document (Registry.mk (Some (models_of registry ++ [r]))))))
  /\ (forall r1 r2 : ModelRecord.t,
        (file1 <- update_registry None r1 ;;
         file2 <- update_registry file1 r2 ;;
         read_registry file2)
        = Ok (Registry.mk (Some [r1; r2]))).
Proof.
  split; [reflexivity|]. split; [reflexivity|]. split.
  - intros [doc|] r; reflexivity.
  - intros r1 r2. reflexivity.
Qed.

(** A registry file that [json.loads] rejects is outside the registry
    invariant; reading it, and so appending to it, raises. *)
Lemma registry_undecodable (r : ModelRecord.t) :
  read_registry (Some Undecodable) = Raise JSONDecodeError
  /\ update_registry (Some Undecodable) r = Raise JSONDecodeError.
Proof. split; reflexivity. Qed.

(** ** Train command *)

(** Blank lines, and the whitespace around the others, never reach
    [json.loads]: here with a decoder that returns its argument. *)
Example load_jsonl_blank_lines :
  load_jsonl (fun line => Ok line)
    (Some [String "a" (String newline EmptyString);
           String " " (String tab (String newline EmptyString));
           String newline EmptyString;
           String " " (String "b" (String " " EmptyString))])
  = Ok ["a"; "b"]%string.
Proof. reflexivity. Qed.

Lemma load_jsonl_loop_skips_blank {Row : Type}
    (json_loads : string -> result Row) (lines : list string) :
  forall rows,
    load_jsonl_loop json_loads lines rows
    = load_jsonl_loop json_loads (filter (fun line => negb (blank line)) lines) rows.
Proof.
  induction lines as [|line lines IH]; intros rows; [reflexivity|].
  cbn [load_jsonl_loop filter]. unfold blank at 1.
  destruct (String.eqb (Py.strip line) EmptyString) eqn:Hblank; cbn [negb].
  - apply IH.
  - cbn [load_jsonl_loop]. rewrite Hblank.
    destruct (json_loads (Py.strip line)); cbn [bind]; [apply IH | reflexivity].
Qed.

(** C10. [load_jsonl] returns the empty list for a dataset file that does
    not exist and skips the blank lines of one that does.  With the
    dataset missing, and the registry file missing or holding a document,
    the train command completes: the registry afterwards is the previous
    models followed by exactly one new record, whose status is ["ready"]
    and whose metrics are [{loss: null, samples: 0, message: "No data"}]. *)
Theorem train_missing_dataset :
  (forall (Row : Type) (json_loads : string -> result Row),
      load_jsonl json_loads None = Ok [])
  /\ (forall (Row : Type) (json_loads : string -> result Row) lines,
        load_jsonl json_loads (Some lines)
        = load_jsonl json_loads
            (Some (filter (fun line => negb (blank line)) lines)))
  /\ (forall json_loads args now (registry : option Registry.t),
        let entry :=
          ModelRecord.mk (Args.model_version args) now (Args.epochs args)
            no_data_metrics (Args.dataset args) "ready"%string in
        main json_loads args now (Files.mk None (option_map Document registry))
        = Ok (Files.mk None
                (Some (Document
                         (Registry.mk (Some (models_of registry ++ [entry]))))),
              entry)).
Proof.
  split; [reflexivity|]. split.
  - intros Row json_loads lines. cbn [load_jsonl].
    apply load_jsonl_loop_skips_blank.
  - intros json_loads args now [doc|]; reflexivity.
Qed.

(** ** Binary64 facts: signs, conversions of integers, cancellation *)

Lemma binary_round_aux_sign (sx : bool) (mx ex : Z) (lx : location) :
  has_sign sx (binary_round_aux prec emax sx mx ex lx).
Proof.
  unfold binary_round_aux.
  destruct (shr_fexp prec emax mx ex lx) as [mrs' e'].
  destruct (shr_fexp prec emax _ e' loc_Exact) as [mrs'' e''].
  destruct (shr_m mrs''); [reflexivity | | exact I].
  destruct (e'' <=? emax - prec); reflexivity.
Qed.

Lemma binary_normalize_sign (m e : Z) :
  0 <= m -> has_sign false (binary_normalize prec emax m e false).
Proof.
  intros Hm. destruct m as [|p|p]; [reflexivity | | lia].
  cbn [binary_normalize]. unfold binary_round.
  destruct (shl_align _ _ _) as [mz ez]. apply binary_round_aux_sign.
Qed.

Lemma nonneg_square (v : float) : nonneg (v * v).
Proof.
  unfold nonneg. rewrite mul_spec.
  destruct (Prim2SF v) as [s|s| |s m e]; cbn; try exact I; try apply xorb_nilpotent.
  rewrite xorb_nilpotent. apply binary_round_aux_sign.
Qed.

Lemma nonneg_add (a b : float) : nonneg a -> nonneg b -> nonneg (a + b).
Proof.
  unfold nonneg. rewrite add_spec.
  destruct (Prim2SF a) as [sa|sa| |sa ma ea], (Prim2SF b) as [sb|sb| |sb mb eb];
    cbn [has_sign]; intros Ha Hb; try subst sa; try subst sb;
    try exact I; try reflexivity.
  unfold SF64add, SFadd, cond_Zopp. apply binary_normalize_sign. lia.
Qed.

Lemma nonneg_div (a b : float) : nonneg a -> nonneg b -> nonneg (a / b).
Proof.
  unfold nonneg. rewrite div_spec.
  destruct (Prim2SF a) as [sa|sa| |sa ma ea], (Prim2SF b) as [sb|sb| |sb mb eb];
    cbn [has_sign]; intros Ha Hb; try subst sa; try subst sb;
    try exact I; try reflexivity.
  unfold SF64div, SFdiv.
  destruct (SFdiv_core_binary _ _ _ _ _ _) as [[mz ez] lz].
  apply binary_round_aux_sign.
Qed.

Lemma nonneg_float_of_int (n : Z) : nonneg (Py.float_of_int n).
Proof.
  unfold nonneg, Py.float_of_int. rewrite of_uint63_spec.
  apply binary_normalize_sign. apply Uint63.to_Z_bounded.
Qed.

Lemma nonneg_not_negative (v : float) : nonneg v -> (v <? 0)%float = false.
Proof.
  unfold nonneg. rewrite ltb_spec.
  change (Prim2SF 0) with (S754_zero false).
  destruct (Prim2SF v) as [s|s| |s m e]; cbn; intros Hs; try subst s; reflexivity.
Qed.

(** Positive integers convert to positive floats. *)



Lemma iter_pos_nat {A : Type} (f : A -> A) (p : positive) :
  forall x, iter_pos f p x = Nat.iter (Pos.to_nat p) f x.
Proof.
  induction p as [p IH|p IH|]; intros x; cbn [iter_pos].
  - rewrite !IH, Pos2Nat.inj_xI. cbn [Nat.mul].
    rewrite Nat.add_0_r, Nat.iter_succ_r, Nat.iter_add. reflexivity.
  - rewrite !IH, Pos2Nat.inj_xO. cbn [Nat.mul].
    rewrite Nat.add_0_r, Nat.iter_add. reflexivity.
  - reflexivity.
Qed.

Lemma shr_keeps_positive (k : nat) :
  forall (m : positive) (r s : bool),
    (k < Pos.to_nat (digits2_pos m))%nat ->
    exists m', shr_m (Nat.iter k shr_1 (Build_shr_record (Zpos m) r s)) = Zpos m'.
Proof.
  induction k as [|k IH]; intros m r s Hk; [now exists m|].
  rewrite Nat.iter_succ_r.
  destruct m as [p|p|]; cbn [digits2_pos] in Hk;
    [ | | cbn in Hk; lia];
    rewrite Pos2Nat.inj_succ in Hk; cbn [shr_1]; apply IH; lia.
Qed.

Lemma shr_record_of_loc_m (m : Z) (l : location) :
  exists r s, shr_record_of_loc m l = Build_shr_record m r s.
Proof. destruct l as [|[]]; cbn; eauto. Qed.

Lemma shr_fexp_positive (m : positive) (e : Z) (l : location) :
  (-1074 <= e)%Z ->
  exists mrs' e' m',
    shr_fexp prec emax (Zpos m) e l = (mrs', e')
    /\ shr_m mrs' = Zpos m' /\ (-1074 <= e')%Z.
Proof.
  intros He. unfold shr_fexp, shr.
  destruct (shr_record_of_loc_m (Zpos m) l) as (r & s & ->).
  remember (fexp prec emax (Zdigits2 (Z.pos m) + e) - e)%Z as n eqn:Hn.
  unfold fexp, SpecFloat.emin, prec, emax in Hn. cbn [Zdigits2] in Hn.
  destruct n as [|p|p].
  - eexists _, _, m. repeat split. exact He.
  - rewrite iter_pos_nat.
    destruct (shr_keeps_positive (Pos.to_nat p) m r s) as (m' & Hm'); [lia|].
    eexists _, _, m'. split; [reflexivity|]. split; [exact Hm' | lia].
  - eexists _, _, m. repeat split. exact He.
Qed.

Lemma round_nearest_even_positive (m : positive) (l : location) :
  exists m', round_nearest_even (Zpos m) l = Zpos m'.
Proof.
  destruct l as [|[]]; cbn [round_nearest_even];
    [now exists m | destruct (Z.even (Z.pos m)) | now exists m | ];
    first [now exists m | now exists (m + 1)%positive].
Qed.

Lemma binary_round_aux_positive (m : positive) (e : Z) (l : location) :
  (-1074 <= e)%Z -> positive_sf (binary_round_aux prec emax false (Zpos m) e l).
Proof.
  intros He. unfold binary_round_aux.
  destruct (shr_fexp_positive m e l He) as (mrs' & e' & m' & -> & Hm' & He').
  rewrite Hm'.
  destruct (round_nearest_even_positive m' (loc_of_shr_record mrs')) as (m2 & ->).
  destruct (shr_fexp_positive m2 e' loc_Exact He') as (mrs2 & e2 & m3 & -> & -> & _).
  destruct (e2 <=? emax - prec)%Z; exact I.
Qed.

Lemma binary_normalize_positive (p : positive) :
  positive_sf (binary_normalize prec emax (Zpos p) 0 false).
Proof.
  cbn [binary_normalize]. unfold binary_round, shl_align.
  remember (fexp prec emax (Z.pos (digits2_pos p) + 0)) as ex' eqn:Hex.
  assert (-1074 <= ex')%Z.
  { subst ex'. unfold fexp, SpecFloat.emin, prec, emax. lia. }
  destruct (ex' - 0)%Z; apply binary_round_aux_positive; lia.
Qed.

Lemma float_of_int_positive (n : Z) :
  (0 < n < 2 ^ 63)%Z -> positive_sf (Prim2SF (Py.float_of_int n)).
Proof.
  intros Hn. unfold Py.float_of_int.
  rewrite of_uint63_spec, Uint63.of_Z_spec.
  rewrite Z.mod_small by (change Uint63.wB with (2 ^ 63)%Z; lia).
  destruct n as [|p|p]; [lia | apply binary_normalize_positive | lia].
Qed.

Lemma zero_div_positive (v : float) :
  positive_sf (Prim2SF v) -> (0 / v)%float = 0%float.
Proof.
  intros Hv. apply Prim2SF_inj. rewrite div_spec.
  change (Prim2SF 0) with (S754_zero false).
  destruct (Prim2SF v) as [s|[]| |[] m e]; cbn in Hv; try contradiction; reflexivity.
Qed.

Lemma is_finite_spec (v : float) :
  is_finite v = true -> finite_sf (Prim2SF v).
Proof.
  unfold is_finite, is_nan, is_infinity.
  rewrite !eqb_spec, abs_spec.
  change (Prim2SF infinity) with (S754_infinity false).
  destruct (Prim2SF v) as [s|[]| |s m e]; cbn; intros H; try exact I; discriminate.
Qed.

Lemma sub_self (v : float) : is_finite v = true -> (v - v)%float = 0%float.
Proof.
  intros Hv. apply is_finite_spec in Hv.
  apply Prim2SF_inj. rewrite sub_spec.
  change (Prim2SF 0) with (S754_zero false).
  destruct (Prim2SF v) as [[]|s| |s m e]; cbn in Hv; try contradiction;
    try reflexivity.
  unfold SF64sub, SFsub. rewrite Z.sub_diag. reflexivity.
Qed.

(** ** Baseline trainer *)

Lemma comprehension_getitem (k : nat) (rows : list WindowExample.t) :
  Forall (fun row => (k < List.length (WindowExample.y row))%nat) rows ->
  comprehension (fun row => Py.getitem (WindowExample.y row) (Z.of_nat k)) rows
  = Ok (component k rows).
Proof.
  induction 1 as [|row rows Hrow _ IH]; [reflexivity|].
  cbn [comprehension component map].
  rewrite (getitem_in_range _ _ 0%float) by (unfold Py.len; lia).
  cbn [bind]. rewrite IH. cbn [bind]. now rewrite Nat2Z.id.
Qed.

Lemma comprehension_pow2 (m : float) (ys : list float) :
  comprehension (fun v => Py.pow2 (v - m)%float) ys
  = if forallb (fun v => negb (square_overflows (v - m))) ys
    then Ok (map (fun v => ((v - m) * (v - m))%float) ys)
    else Raise OverflowError.
Proof.
  induction ys as [|v ys IH]; [reflexivity|].
  cbn [comprehension forallb map]. unfold Py.pow2 at 1, square_overflows at 1.
  destruct (PrimFloat.is_infinity _ && _); cbn [negb andb bind]; [reflexivity|].
  rewrite IH. destruct (forallb _ ys); reflexivity.
Qed.

Lemma nonneg_sum (l : list float) : Forall nonneg l -> nonneg (Py.sum l).
Proof.
  unfold Py.sum. assert (H0 : nonneg 0%float) by reflexivity. revert H0.
  generalize 0%float as acc.
  induction l as [|v l IH]; intros acc Hacc Hl; [exact Hacc|].
  cbn [fold_left]. inversion Hl; subst. apply IH; [|assumption].
  now apply nonneg_add.
Qed.

Lemma nonneg_variance (ys : list float) : nonneg (variance ys).
Proof.
  unfold variance. apply nonneg_div; [|apply nonneg_float_of_int].
  apply nonneg_sum. unfold deviation_squares. apply Forall_map.
  apply Forall_forall. intros v _. apply nonneg_square.
Qed.

Lemma math_sqrt_nonneg (v : float) :
  nonneg v -> Py.math_sqrt v = Ok (PrimFloat.sqrt v).
Proof. intros Hv. unfold Py.math_sqrt. now rewrite nonneg_not_negative. Qed.

(** What [baseline_train] returns on examples with two-component targets. *)
Lemma baseline_train_closed (rows : list WindowExample.t) :
  two_targets rows ->
  baseline_train rows
  = match rows with
    | [] => Ok no_data_metrics
    | _ :: _ =>
        if squares_in_range (component 0 rows)
           && squares_in_range (component 1 rows)
        then Ok (ModelMetrics.mk
                   (Some (PrimFloat.sqrt (variance (component 0 rows)
                                          + variance (component 1 rows))))
                   (Py.len rows) None
                   (Some [mean (component 0 rows); mean (component 1 rows)]))
        else Raise OverflowError
    end.
Proof.
  intros Hrows. destruct rows as [|row rows]; [reflexivity|].
  unfold baseline_train. set (all := row :: rows) in *.
  rewrite (comprehension_getitem 0), (comprehension_getitem 1)
    by (eapply Forall_impl; [|exact Hrows]; cbn; intros r Hr; rewrite Hr; lia).
  cbn [bind]. rewrite !comprehension_pow2.
  fold (mean (component 0 all)) (mean (component 1 all)).
  fold (squares_in_range (component 0 all)) (squares_in_range (component 1 all)).
  fold (deviation_squares (component 0 all)) (deviation_squares (component 1 all)).
  destruct (squares_in_range (component 0 all)); cbn [bind andb]; [|reflexivity].
  fold (variance (component 0 all)).
  destruct (squares_in_range (component 1 all)); cbn [bind]; [|reflexivity].
  fold (variance (component 1 all)).
  rewrite math_sqrt_nonneg by (apply nonneg_add; apply nonneg_variance).
  reflexivity.
Qed.

Lemma component_constant (a b : float) (rows : list WindowExample.t) :
  Forall (fun row => WindowExample.y row = [a; b]) rows ->
  component 0 rows = repeat a (List.length rows)
  /\ component 1 rows = repeat b (List.length rows).
Proof.
  induction 1 as [|row rows Hrow _ [IH0 IH1]]; [split; reflexivity|].
  unfold component in *. cbn [map List.length repeat].
  rewrite IH0, IH1, Hrow. split; reflexivity.
Qed.

Lemma sum_zeros (n : nat) : Py.sum (repeat 0%float n) = 0%float.
Proof.
  unfold Py.sum. induction n as [|n IH]; [reflexivity|].
  cbn [repeat fold_left]. exact IH.
Qed.

Lemma comprehension_cases {A B : Type} (f : A -> result B) (l : list A) :
  (exists bs, comprehension f l = Ok bs /\ Forall2 (fun a b => f a = Ok b) l bs)
  \/ (exists e, comprehension f l = Raise e /\ Exists (fun a => f a = Raise e) l).
Proof.
  induction l as [|a l IH]; [left; exists []; split; [reflexivity | constructor]|].
  cbn [comprehension]. destruct (f a) as [b|e] eqn:Ha; cbn [bind].
  - destruct IH as [(bs & -> & Hbs) | (e & -> & He)]; cbn [bind].
    + left. exists (b :: bs). split; [reflexivity | now constructor].
    + right. exists e. split; [reflexivity | now apply Exists_cons_tl].
  - right. exists e. split; [reflexivity | now apply Exists_cons_hd].
Qed.

Lemma comprehension_repeat {A B : Type} (f : A -> result B) (a : A) (b : B)
    (n : nat) :
  f a = Ok b -> comprehension f (repeat a n) = Ok (repeat b n).
Proof.
  intros Ha. induction n as [|n IH]; [reflexivity|].
  cbn [repeat comprehension]. now rewrite Ha, IH.
Qed.

Lemma component_length (k : nat) (rows : list WindowExample.t) :
  Py.len (component k rows) = Py.len rows.
Proof. unfold Py.len, component. now rewrite length_map. Qed.

(** The correctly rounded square and the left-to-right sum are instances
    of what is taken as known of the libraries. *)
Lemma pow2_square_library : square_library Py.pow2.
Proof.
  unfold square_library, Py.pow2. split; [|split; [|reflexivity]].
  - intros v r. destruct (_ && _); [discriminate|].
    intros H. injection H as <-. apply nonneg_square.
  - intros v e. destruct (_ && _); [|discriminate].
    intros H. now injection H as <-.
Qed.

Lemma sum_sum_library : sum_library Py.sum.
Proof. split; [exact nonneg_sum | exact sum_zeros]. Qed.

(** What [baseline_train_with] returns on a non-empty list of examples
    with two-component targets. *)
Lemma baseline_train_with_nonempty (pow2 : float -> result float)
    (sum : list float -> float) (rows : list WindowExample.t) :
  square_library pow2 -> sum_library sum -> two_targets rows -> rows <> [] ->
  let n := Py.float_of_int (Py.len rows) in
  let mean0 := (sum (component 0 rows) / n)%float in
  let mean1 := (sum (component 1 rows) / n)%float in
  (baseline_train_with pow2 sum rows = Raise OverflowError
   /\ (Exists (fun v => pow2 (v - mean0)%float = Raise OverflowError)
         (component 0 rows)
       \/ Exists (fun v => pow2 (v - mean1)%float = Raise OverflowError)
            (component 1 rows)))
  \/ (exists sq0 sq1 : list float,
        Forall2 (fun v s => pow2 (v - mean0)%float = Ok s) (component 0 rows) sq0
        /\ Forall2 (fun v s => pow2 (v - mean1)%float = Ok s) (component 1 rows) sq1
        /\ baseline_train_with pow2 sum rows
           = Ok (ModelMetrics.mk
                   (Some (PrimFloat.sqrt (sum sq0 / n + sum sq1 / n)))
                   (Py.len rows) None (Some [mean0; mean1]))).
Proof.
  intros (Hsign & Hexn & _) (Hsum & _) Hrows Hne n mean0 mean1.
  destruct rows as [|row rows]; [contradiction|].
  unfold baseline_train_with. set (all := row :: rows) in *.
  rewrite (comprehension_getitem 0), (comprehension_getitem 1)
    by (eapply Forall_impl; [|exact Hrows]; cbn; intros r Hr; rewrite Hr; lia).
  cbn [bind]. rewrite !component_length.
  fold n. fold mean0. fold mean1.
  assert (Hraise : forall (m : float) ys e,
             Exists (fun v => pow2 (v - m)%float = Raise e) ys ->
             e = OverflowError).
  { intros m ys e Hex. apply Exists_exists in Hex.
    destruct Hex as (v & _ & Hv). exact (Hexn _ _ Hv). }
  assert (Hsquares : forall (m : float) ys sq,
             Forall2 (fun v s => pow2 (v - m)%float = Ok s) ys sq ->
             nonneg (sum sq / n)).
  { intros m ys sq Hsq. apply nonneg_div; [|apply nonneg_float_of_int].
    apply Hsum. induction Hsq as [|v s ys sq Hv _ IH]; constructor;
      [exact (Hsign _ _ Hv) | exact IH]. }
  destruct (comprehension_cases (fun v => pow2 (v - mean0)%float) (component 0 all))
    as [(sq0 & -> & Hsq0) | (e & -> & He)]; cbn [bind].
  2:{ left. pose proof (Hraise _ _ _ He) as ->. split; [reflexivity | now left]. }
  destruct (comprehension_cases (fun v => pow2 (v - mean1)%float) (component 1 all))
    as [(sq1 & -> & Hsq1) | (e & -> & He)]; cbn [bind].
  2:{ left. pose proof (Hraise _ _ _ He) as ->. split; [reflexivity | now right]. }
  right. exists sq0, sq1. split; [exact Hsq0|]. split; [exact Hsq1|].
  rewrite math_sqrt_nonneg
    by (apply nonneg_add; [exact (Hsquares _ _ _ Hsq0) | exact (Hsquares _ _ _ Hsq1)]).
  reflexivity.
Qed.

(** What [baseline_train_with] returns when all targets are the same
    finite pair and the means come out exactly. *)
Lemma baseline_train_with_constant (pow2 : float -> result float)
    (sum : list float -> float) (rows : list WindowExample.t) (a b : float) :
  square_library pow2 -> sum_library sum ->
  rows <> [] -> Py.len rows < 2 ^ 63 ->
  Forall (fun row => WindowExample.y row = [a; b]) rows ->
  PrimFloat.is_finite a = true -> PrimFloat.is_finite b = true ->
  (sum (component 0 rows) / Py.float_of_int (Py.len rows))%float = a ->
  (sum (component 1 rows) / Py.float_of_int (Py.len rows))%float = b ->
  baseline_train_with pow2 sum rows
  = Ok (ModelMetrics.mk (Some 0%float) (Py.len rows) None (Some [a; b])).
Proof.
  intros (_ & _ & Hzero) (_ & Hzeros) Hne Hmax Hconst Ha Hb Hmean0 Hmean1.
  destruct rows as [|row rows]; [contradiction|].
  unfold baseline_train_with. set (all := row :: rows) in *.
  rewrite (comprehension_getitem 0), (comprehension_getitem 1)
    by (eapply Forall_impl; [|exact Hconst]; cbn; intros r Hr; rewrite Hr; cbn; lia).
  cbn [bind]. rewrite !component_length, Hmean0, Hmean1.
  destruct (component_constant a b _ Hconst) as [-> ->].
  assert (Hsq : forall v, PrimFloat.is_finite v = true ->
                comprehension (fun w => pow2 (w - v)%float)
                  (repeat v (List.length all))
                = Ok (repeat 0%float (List.length all))).
  { intros v Hv. apply comprehension_repeat. now rewrite sub_self. }
  rewrite (Hsq a Ha). cbn [bind]. rewrite (Hsq b Hb). cbn [bind].
  rewrite Hzeros.
  rewrite zero_div_positive
    by (apply float_of_int_positive; unfold Py.len in *; subst all; cbn in *; lia).
  reflexivity.
Qed.

(** C4, as amended.  The two library functions of the trainer, [** 2]
    and [sum], are left open, with what is taken as known of them.  On
    examples whose targets have two components: an empty list gives
    [{loss: null, samples: 0, message: "No data"}]; a non-empty one gives
    [{loss: sqrt(var0 + var1), samples: N, predict_mean: [mean0, mean1]}],
    where each mean is the [sum] of the component divided by [N] and each
    variance is the [sum], divided by [N], of the squares [(v - mean) ** 2]
    as the library returns them, unless one of these squares raises
    [OverflowError], which is then what the trainer raises; nothing else
    is raised.  When all targets equal a finite [[a, b]] and the computed
    means are exactly [a] and [b], the loss is [0] and [predict_mean] is
    [[a, b]]. *)
Theorem baseline_train_statistic (pow2 : float -> result float)
    (sum : list float -> float) (rows : list WindowExample.t) :
  square_library pow2 -> sum_library sum -> two_targets rows ->
  let n := Py.float_of_int (Py.len rows) in
  let mean0 := (sum (component 0 rows) / n)%float in
  let mean1 := (sum (component 1 rows) / n)%float in
  (rows = [] -> baseline_train_with pow2 sum rows = Ok no_data_metrics)
  /\ (rows <> [] ->
      (baseline_train_with pow2 sum rows = Raise OverflowError
       /\ (Exists (fun v => pow2 (v - mean0)%float = Raise OverflowError)
             (component 0 rows)
           \/ Exists (fun v => pow2 (v - mean1)%float = Raise OverflowError)
                (component 1 rows)))
      \/ (exists sq0 sq1 : list float,
            Forall2 (fun v s => pow2 (v - mean0)%float = Ok s)
              (component 0 rows) sq0
            /\ Forall2 (fun v s => pow2 (v - mean1)%float = Ok s)
                 (component 1 rows) sq1
            /\ baseline_train_with pow2 sum rows
               = Ok (ModelMetrics.mk
                       (Some (PrimFloat.sqrt (sum sq0 / n + sum sq1 / n)))
                       (Py.len rows) None (Some [mean0; mean1]))))
  /\ (forall a b : float,
        rows <> [] -> Py.len rows < 2 ^ 63 ->
        Forall (fun row => WindowExample.y row = [a; b]) rows ->
        PrimFloat.is_finite a = true -> PrimFloat.is_finite b = true ->
        mean0 = a -> mean1 = b ->
        baseline_train_with pow2 sum rows
        = Ok (ModelMetrics.mk (Some 0%float) (Py.len rows) None (Some [a; b]))).
Proof.
  intros Hpow Hsum Hrows n mean0 mean1. split; [|split].
  - intros ->. reflexivity.
  - intros Hne. now apply baseline_train_with_nonempty.
  - intros a b Hne Hmax Hconst Ha Hb Hmean0 Hmean1.
    now apply baseline_train_with_constant.
Qed.

Lemma baseline_train_statistic_witness :
  square_library Py.pow2 /\ sum_library Py.sum
  /\ two_targets [target_row 1 2; target_row 3 4]
  /\ baseline_train_with Py.pow2 Py.sum [target_row 1 2; target_row 3 4]
     = Ok (ModelMetrics.mk (Some (PrimFloat.sqrt 2)) 2 None (Some [2; 3]%float))
  /\ baseline_train_with Py.pow2 Py.sum [target_row 1.5 0.25; target_row 1.5 0.25]
     = Ok (ModelMetrics.mk (Some 0%float) 2 None (Some [1.5; 0.25]%float)).
Proof.
  assert (Hwf : forall a b c d, two_targets [target_row a b; target_row c d]).
  { intros. repeat constructor. }
  split; [exact pow2_square_library|]. split; [exact sum_sum_library|].
  split; [apply Hwf|]. split.
  - destruct (baseline_train_statistic Py.pow2 Py.sum _
                pow2_square_library sum_sum_library (Hwf 1 2 3 4)%float)
      as (_ & Hgen & _).
    destruct Hgen as [[Hraise _] | (sq0 & sq1 & _ & _ & _)]; [discriminate | |].
    + vm_compute in Hraise. discriminate.
    + vm_compute. reflexivity.
  - destruct (baseline_train_statistic Py.pow2 Py.sum _
                pow2_square_library sum_sum_library
                (Hwf 1.5 0.25 1.5 0.25)%float)
      as (_ & _ & Hconst).
    apply Hconst; try reflexivity; [discriminate | repeat constructor].
Defined.

(** The embedding with the correctly rounded square and the left-to-right
    sum is that instance of the open one. *)
Lemma baseline_train_instance (rows : list WindowExample.t) :
  baseline_train rows = baseline_train_with Py.pow2 Py.sum rows.
Proof. reflexivity. Qed.

(** C4 as stated fails.  Three examples with the same target [[0.1, 0.0]]:
    the float sum of three times 0.1 divided by 3 is not 0.1, so
    [predict_mean] is not the target and the loss is not zero.  The sum is
    the same from left to right and compensated (its exact value is a
    tie), and the deviations are one unit in the last place of 0.1, that
    is [-2^-56], whose square [2^-112] is a power of two and so the same
    in every C library.  And two examples with targets [1e200] and
    [-1e200]: the mean is zero, the square of [1e200] is out of range,
    and the trainer raises instead of returning metrics. *)
Lemma baseline_train_counterexample :
  (exists loss mean0 : float,
      baseline_train [target_row 0.1 0; target_row 0.1 0; target_row 0.1 0]
      = Ok (ModelMetrics.mk (Some loss) 3 None (Some [mean0; 0%float]))
      /\ baseline_train_with Py.pow2 Py.sum_compensated
           [target_row 0.1 0; target_row 0.1 0; target_row 0.1 0]
         = Ok (ModelMetrics.mk (Some loss) 3 None (Some [mean0; 0%float]))
      /\ (0.1 - mean0)%float = (- 0x1p-56)%float
      /\ (loss =? 0)%float = false
      /\ (mean0 =? 0.1)%float = false)
  /\ baseline_train [target_row 1e200 0; target_row (-1e200) 0]
     = Raise OverflowError
  /\ baseline_train_with Py.pow2 Py.sum_compensated
       [target_row 1e200 0; target_row (-1e200) 0]
     = Raise OverflowError.
Proof.
  split; [|split; vm_compute; reflexivity].
  eexists. eexists. split; [vm_compute; reflexivity|].
  repeat split; vm_compute; reflexivity.
Qed.

(** * Further properties *)

(** ** Order of binary64 values *)

Lemma ltb_leb (a b : float) : (a <? b)%float = true -> (a <=? b)%float = true.
Proof.
  rewrite ltb_spec, leb_spec. unfold SFltb, SFleb.
  destruct (SFcompare (Prim2SF a) (Prim2SF b)) as [[]|]; intros H;
    first [reflexivity | discriminate].
Qed.

(** [max(0.0, v)] is never below zero and never NaN. *)
Lemma max_zero_nonnegative (v : float) : (0 <=? Py.max 0 v)%float = true.
Proof.
  unfold Py.max. destruct (0 <? v)%float eqn:Hv; [now apply ltb_leb | reflexivity].
Qed.

(** Both clamps of the sources, [min(1, max(0, v))] and
    [max(0, min(1, v))], end in [[0, 1]] whatever [v] is. *)
Lemma min_max_unit (v : float) :
  (0 <=? Py.min 1 (Py.max 0 v))%float = true
  /\ (Py.min 1 (Py.max 0 v) <=? 1)%float = true.
Proof.
  unfold Py.min.
  destruct (Py.max 0 v <? 1)%float eqn:Hlt.
  - split; [apply max_zero_nonnegative | now apply ltb_leb].
  - split; reflexivity.
Qed.

Lemma max_min_unit (v : float) :
  (0 <=? Py.max 0 (Py.min 1 v))%float = true
  /\ (Py.max 0 (Py.min 1 v) <=? 1)%float = true.
Proof.
  split; [apply max_zero_nonnegative|].
  unfold Py.max at 1.
  destruct (0 <? Py.min 1 v)%float; [|reflexivity].
  unfold Py.min. destruct (v <? 1)%float eqn:Hlt; [now apply ltb_leb | reflexivity].
Qed.

(** ** Forecast engine, further *)

Lemma firstn_seq_le (n m : nat) :
  (n <= m)%nat -> forall a, firstn n (seq a m) = seq a n.
Proof.
  revert m. induction n as [|n IH]; intros m Hle a; [reflexivity|].
  destruct m as [|m]; [lia|]. cbn [seq firstn]. f_equal. apply IH. lia.
Qed.

Lemma range_firstn (n m : Z) :
  n <= m -> Py.range 0 n = firstn (Z.to_nat n) (Py.range 0 m).
Proof.
  intros Hle. unfold Py.range. rewrite !Z.sub_0_r, firstn_map. f_equal.
  rewrite firstn_seq_le by lia. reflexivity.
Qed.

(** Every forecast is the beginning of the full, 24-step forecast for
    the same sequence and call time: [clamp(horizonMinutes // 5, 1, 24)]
    of its predictions. *)
Theorem infer_prefix_of_full (horizonMinutes : option Z)
    (sequence : option (list Point.t)) (now : datetime) :
  predictions_of horizonMinutes sequence now
  = firstn (Z.to_nat (clamp_int (Py.get horizonMinutes 60 / 5) 1 24))
      (predictions_of (Some 120) sequence now).
Proof.
  unfold predictions_of, infer. cbn [Forecast.predictions Payload.horizonMinutes
    Payload.sequence Py.get].
  rewrite <- clamp_int_max_min by lia.
  change (Z.max 1 (Z.min 24 (120 / 5))) with 24.
  rewrite (range_firstn (Z.max 1 (Z.min 24 (Py.get horizonMinutes 60 / 5))) 24) by lia.
  now rewrite firstn_map.
Qed.

(** A forecast is computed from five fields of the last point of the
    sequence alone: the earlier points, and every other field of the last
    one (timestamp, bx, by, bt, ey, epsilon, dst), have no influence. *)
Theorem infer_reads_latest_fields (horizonMinutes : option Z)
    (earlier : list Point.t) (latest : Point.t) (now : datetime) :
  infer (Payload.mk horizonMinutes (Some (earlier ++ [latest]))) now
  = infer (Payload.mk horizonMinutes
             (Some [engine_point (engine_speed latest) (engine_density latest)
                      (engine_bz latest) (engine_kp latest)
                      (engine_newell latest)])) now.
Proof.
  unfold infer. cbn [Payload.sequence Payload.horizonMinutes Py.get].
  rewrite last_last. reflexivity.
Qed.

(** The envelope of a forecast: the model version is the constant, the
    generation time is the call time, the requested horizon is echoed
    unclamped, and prediction [i] is stamped [5 * (i + 1)] minutes after
    the call time, so within two hours, each five minutes after the one
    before. *)
Theorem infer_envelope (payload : Payload.t) (now : datetime) :
  Forecast.modelVersion (infer payload now) = MODEL_VERSION
  /\ Forecast.generatedAt (infer payload now) = now
  /\ Forecast.horizonMinutes (infer payload now)
     = Py.get (Payload.horizonMinutes payload) 60
  /\ (forall i p,
        nth_error (Forecast.predictions (infer payload now)) i = Some p ->
        Prediction.timestamp p = now + timedelta_minutes (5 * (Z.of_nat i + 1))
        /\ now < Prediction.timestamp p <= now + timedelta_minutes 120
        /\ (forall q,
              nth_error (Forecast.predictions (infer payload now)) (S i) = Some q ->
              Prediction.timestamp q
              = Prediction.timestamp p + timedelta_minutes 5)).
Proof.
  split; [reflexivity|]. split; [reflexivity|]. split; [reflexivity|].
  intros i p Hp.
  destruct (infer_prediction_at _ _ _ _ Hp) as (Hi & Hts & _).
  rewrite Hts. unfold timedelta_minutes. repeat split; try lia.
  intros q Hq.
  destruct (infer_prediction_at _ _ _ _ Hq) as (_ & Htq & _).
  rewrite Htq. unfold timedelta_minutes. lia.
Qed.

Lemma infer_envelope_witness :
  exists p q,
    nth_error (predictions_of (Some 1000) None 7) 22 = Some p
    /\ nth_error (predictions_of (Some 1000) None 7) 23 = Some q
    /\ Prediction.timestamp p = 7 + timedelta_minutes 115
    /\ Prediction.timestamp q = Prediction.timestamp p + timedelta_minutes 5
    /\ Forecast.horizonMinutes (infer (Payload.mk (Some 1000) None) 7) = 1000.
Proof.
  destruct (infer_envelope (Payload.mk (Some 1000) None) 7)
    as (_ & _ & Hecho & Hsteps).
  eexists. eexists.
  split; [vm_compute; reflexivity|]. split; [vm_compute; reflexivity|].
  destruct (Hsteps 22%nat _ eq_refl) as (Hts & _ & Hnext).
  split; [exact Hts|]. split; [apply Hnext; reflexivity | exact Hecho].
Defined.

(** The aurora intensity of every prediction of every forecast lies in
    [[0, 1]], whatever the fields of the point are (infinities and NaN
    included). *)
Theorem infer_aurora_unit (payload : Payload.t) (now : datetime) :
  Forall (fun p => (0 <=? Prediction.auroraIntensity p)%float = true
                   /\ (Prediction.auroraIntensity p <=? 1)%float = true)
    (Forecast.predictions (infer payload now)).
Proof.
  unfold infer. cbn [Forecast.predictions].
  apply Forall_forall. intros p Hp.
  apply in_map_iff in Hp. destruct Hp as (i & <- & _).
  cbn [Prediction.auroraIntensity]. apply max_min_unit.
Qed.

(** For the 24 steps a forecast can have, the confidence is the bare
    [0.9 - i * 0.02]: it stays strictly between the two bounds of the
    clamp and strictly decreases. *)
Lemma confidence_unclamped_steps (i : nat) :
  (i < 24)%nat ->
  let c (k : nat) :=
    Py.max 0.35 (Py.min 0.95 (0.9 - Py.float_of_int (Z.of_nat k) * 0.02))%float in
  c i = (0.9 - Py.float_of_int (Z.of_nat i) * 0.02)%float
  /\ (0.35 <? c i)%float = true
  /\ (c i <? 0.95)%float = true
  /\ (c (S i) <? c i)%float = true.
Proof.
  intros Hi.
  do 24 (destruct i as [|i]; [vm_compute; auto|]).
  lia.
Qed.

(** The clamp on the confidence never acts: prediction [i] has confidence
    exactly [0.9 - i * 0.02], strictly between 0.35 and 0.95, and strictly
    above the confidence of the next prediction. *)
Theorem infer_confidence_unclamped (payload : Payload.t) (now : datetime)
    (i : nat) (p : Prediction.t) :
  nth_error (Forecast.predictions (infer payload now)) i = Some p ->
  Prediction.confidence p = (0.9 - Py.float_of_int (Z.of_nat i) * 0.02)%float
  /\ (0.35 <? Prediction.confidence p)%float = true
  /\ (Prediction.confidence p <? 0.95)%float = true
  /\ (forall q,
        nth_error (Forecast.predictions (infer payload now)) (S i) = Some q ->
        (Prediction.confidence q <? Prediction.confidence p)%float = true).
Proof.
  intros Hp.
  destruct (infer_prediction_at _ _ _ _ Hp) as (Hi & _ & Hc).
  destruct (confidence_unclamped_steps i Hi) as (Hbare & Hlo & Hhi & Hnext).
  cbv beta in *. rewrite Hc. repeat split; try assumption.
  intros q Hq.
  destruct (infer_prediction_at _ _ _ _ Hq) as (_ & _ & Hcq).
  rewrite Hcq. exact Hnext.
Qed.

Lemma infer_confidence_unclamped_witness :
  exists p q,
    nth_error (predictions_of (Some 120) None 0) 22 = Some p
    /\ nth_error (predictions_of (Some 120) None 0) 23 = Some q
    /\ (0.35 <? Prediction.confidence q)%float = true
    /\ (Prediction.confidence q <? Prediction.confidence p)%float = true.
Proof.
  eexists. eexists.
  split; [vm_compute; reflexivity|]. split; [vm_compute; reflexivity|].
  destruct (infer_confidence_unclamped (Payload.mk (Some 120) None) 0 22 _ eq_refl)
    as (_ & _ & _ & Hnext).
  destruct (infer_confidence_unclamped (Payload.mk (Some 120) None) 0 23 _ eq_refl)
    as (_ & Hlo & _).
  split; [exact Hlo|]. apply Hnext. reflexivity.
Defined.

Lemma max_zero_opp (bz : float) :
  (0 <=? bz)%float = true -> Py.max 0 (- bz) = 0%float.
Proof.
  unfold Py.max. rewrite leb_spec, ltb_spec, opp_spec.
  change (Prim2SF 0) with (S754_zero false).
  destruct (Prim2SF bz) as [s|[]| |[] m e]; cbn; intros H;
    first [reflexivity | discriminate].
Qed.

(** A northward field contributes nothing: for [bz >= 0] the forecast is
    the one for [bz = 0]. *)
Theorem infer_northward_bz (horizonMinutes : option Z)
    (speed density bz kp newell : float) (now : datetime) :
  (0 <=? bz)%float = true ->
  infer (Payload.mk horizonMinutes
           (Some [engine_point speed density bz kp newell])) now
  = infer (Payload.mk horizonMinutes
             (Some [engine_point speed density 0 kp newell])) now.
Proof.
  intros Hbz. unfold infer.
  cbn [Payload.sequence Payload.horizonMinutes Py.get last engine_point
       Point.solarWind Point.magneticField Point.indices Point.coupling
       SolarWind.speed SolarWind.density MagneticField.z Indices.kp
       Coupling.newell].
  rewrite (max_zero_opp bz Hbz).
  change (Py.max 0 (- 0))%float with 0%float. reflexivity.
Qed.

Lemma infer_northward_bz_witness :
  (0 <=? 7.5)%float = true
  /\ infer (Payload.mk (Some 30) (Some [engine_point 450 6 7.5 3 1200])) 0
     = infer (Payload.mk (Some 30) (Some [engine_point 450 6 0 3 1200])) 0.
Proof.
  split; [reflexivity|].
  apply (infer_northward_bz (Some 30) 450 6 7.5 3 1200 0). reflexivity.
Defined.

(** ** Feature codec, further *)

(** A feature vector always has 11 entries, and the target of a point is
    a function of two of them: entries 9 ([kp]) and 10 ([dst]). *)
Theorem target_from_features (point : Point.t) :
  List.length (feature_vector point) = 11%nat
  /\ target_vector point
     = targets_formula (nth 9 (feature_vector point) 0%float)
         (nth 10 (feature_vector point) 0%float).
Proof.
  split; [reflexivity|].
  destruct point as [ts sw mf ef cp [[[kp|] [dst|]]|]]; reflexivity.
Qed.

(** Whatever the indices of a point are (infinities and NaN included),
    its target has exactly two components, the perturbation is at least
    zero and the aurora intensity lies in [[0, 1]]; neither is NaN. *)
Theorem target_vector_bounds (point : Point.t) :
  exists perturb aurora : float,
    target_vector point = [perturb; aurora]
    /\ (0 <=? perturb)%float = true
    /\ (0 <=? aurora)%float = true
    /\ (aurora <=? 1)%float = true.
Proof.
  unfold target_vector. eexists. eexists. split; [reflexivity|].
  split; [apply max_zero_nonnegative|]. apply min_max_unit.
Qed.

(** ** Window builder, further *)

Lemma getitem_valid {A : Type} (l : list A) (i : Z) :
  - Py.len l <= i < Py.len l -> exists v, Py.getitem l i = Ok v.
Proof.
  intros Hi. unfold Py.getitem, Py.len in *.
  destruct (Z.ltb_spec i 0) as [Hneg|Hpos].
  - destruct (Z.ltb_spec (i + Z.of_nat (List.length l)) 0); [lia|].
    destruct (nth_error l (Z.to_nat (i + Z.of_nat (List.length l)))) eqn:E; [eauto|].
    apply nth_error_None in E. lia.
  - destruct (Z.ltb_spec i 0); [lia|].
    destruct (nth_error l (Z.to_nat i)) eqn:E; [eauto|].
    apply nth_error_None in E. lia.
Qed.

Lemma getitem_below {A : Type} (l : list A) (i : Z) :
  i < - Py.len l -> Py.getitem l i = Raise IndexError.
Proof.
  intros Hi. unfold Py.getitem, Py.len in *.
  destruct (Z.ltb_spec i 0); [|lia].
  destruct (Z.ltb_spec (i + Z.of_nat (List.length l)) 0); [reflexivity | lia].
Qed.

Lemma build_examples_loop_valid (points : list Point.t) (I H : Z)
    (ends : list Z) :
  Forall (fun end_ => - Py.len points <= end_ + H - 1 < Py.len points) ends ->
  forall acc, exists examples,
    build_examples_loop points I H ends acc = Ok examples
    /\ List.length examples = (List.length acc + List.length ends)%nat.
Proof.
  induction 1 as [|end_ ends Hend _ IH]; intros acc.
  - exists acc. split; [reflexivity | cbn; lia].
  - cbn [build_examples_loop].
    destruct (getitem_valid points _ Hend) as (future & ->). cbn [bind].
    destruct (IH (acc ++
      [WindowExample.mk
         (map feature_vector (Py.slice points (end_ - I) end_))
         (target_vector future)
         (Py.get (Point.timestamp future) EmptyString)]))
      as (examples & Hrun & Hlen).
    exists examples. split; [exact Hrun|].
    rewrite Hlen, length_app. cbn. lia.
Qed.

Lemma range_bounds (a b e : Z) : In e (Py.range a b) -> a <= e < b.
Proof.
  unfold Py.range. intros Hin. apply in_map_iff in Hin.
  destruct Hin as (k & <- & Hk). apply in_seq in Hk. lia.
Qed.

(** [build_examples] for arbitrary integer parameters, which it does not
    check: with [N] points it raises [IndexError] exactly when there is a
    window to build ([I < N - H]) and the first target index [I + H - 1]
    lies below [-N]; in every other case it returns
    [max(0, N - H - I)] examples, reading negative indices from the end
    of the feed. *)
Theorem build_examples_unchecked (points : list Point.t) (I H : Z) :
  (Py.len points - H <= I \/ - Py.len points <= I + H - 1 ->
   exists examples,
     build_examples points I H = Ok examples
     /\ Py.len examples = Z.max 0 (Py.len points - H - I))
  /\ (I < Py.len points - H -> I + H - 1 < - Py.len points ->
      build_examples points I H = Raise IndexError).
Proof.
  split.
  - intros Hok. unfold build_examples.
    destruct (build_examples_loop_valid points I H
                (Py.range I (Py.len points - H))) with (acc := @nil WindowExample.t)
      as (examples & Hrun & Hlen).
    + apply Forall_forall. intros e He. apply range_bounds in He. lia.
    + exists examples. split; [exact Hrun|].
      unfold Py.len at 1. rewrite Hlen, range_length. cbn. lia.
  - intros Hwindow Hlow. unfold build_examples.
    rewrite range_cons by lia. cbn [build_examples_loop].
    rewrite getitem_below by lia. reflexivity.
Qed.

Lemma build_examples_unchecked_witness :
  (exists examples,
      build_examples chronological_feed (-2) 1 = Ok examples
      /\ Py.len examples = 5)
  /\ build_examples chronological_feed (-10) 1 = Raise IndexError.
Proof.
  destruct (build_examples_unchecked chronological_feed (-2) 1) as [Hok _].
  destruct (build_examples_unchecked chronological_feed (-10) 1) as [_ Hraise].
  split.
  - apply Hok. right. vm_compute. discriminate.
  - apply Hraise; reflexivity.
Defined.

Lemma example_of_shape (points : list Point.t) (I H end_ : Z) :
  0 < I -> I <= end_ <= Py.len points ->
  List.length (WindowExample.x (example_of points I H end_)) = Z.to_nat I
  /\ Forall (fun row => List.length row = 11%nat)
       (WindowExample.x (example_of points I H end_))
  /\ List.length (WindowExample.y (example_of points I H end_)) = 2%nat.
Proof.
  intros HI Hend. unfold example_of. cbn [WindowExample.x WindowExample.y].
  split; [|split; [|reflexivity]].
  - rewrite length_map.
    destruct (slice_window points (end_ - I) end_) as [_ ->]; [lia | lia |].
    f_equal. lia.
  - apply Forall_map, Forall_forall. intros point _. reflexivity.
Qed.

Lemma examples_shape (points : list Point.t) (I H : Z) :
  0 < I -> 0 < H ->
  Forall (fun example =>
            List.length (WindowExample.x example) = Z.to_nat I
            /\ Forall (fun row => List.length row = 11%nat)
                 (WindowExample.x example)
            /\ List.length (WindowExample.y example) = 2%nat)
    (map (example_of points I H) (Py.range I (Py.len points - H))).
Proof.
  intros HI HH. apply Forall_map, Forall_forall. intros end_ Hend.
  apply range_bounds in Hend. apply example_of_shape; lia.
Qed.

(** For positive parameters every example built has a window [x] of
    exactly [I] rows of 11 features each and a target [y] of 2 components. *)
Theorem build_examples_shape (points : list Point.t) (I H : Z) :
  0 < I -> 0 < H ->
  exists examples,
    build_examples points I H = Ok examples
    /\ Forall (fun example =>
                 List.length (WindowExample.x example) = Z.to_nat I
                 /\ Forall (fun row => List.length row = 11%nat)
                      (WindowExample.x example)
                 /\ List.length (WindowExample.y example) = 2%nat)
         examples.
Proof.
  intros HI HH. eexists. split; [now apply build_examples_closed|].
  now apply examples_shape.
Qed.

Lemma build_examples_shape_witness :
  exists examples,
    build_examples chronological_feed 2 1 = Ok examples
    /\ Forall (fun example =>
                 List.length (WindowExample.x example) = 2%nat
                 /\ Forall (fun row => List.length row = 11%nat)
                      (WindowExample.x example)
                 /\ List.length (WindowExample.y example) = 2%nat)
         examples.
Proof. apply (build_examples_shape chronological_feed 2 1); lia. Defined.



Lemma firstn_succ_snoc {A : Type} (d : A) (l : list A) :
  forall n, (n < List.length l)%nat ->
            firstn (S n) l = firstn n l ++ [nth n l d].
Proof.
  induction l as [|a l IH]; intros n Hn; [cbn in Hn; lia|].
  destruct n as [|n]; [reflexivity|].
  cbn [firstn nth app]. f_equal. apply IH. cbn in Hn. lia.
Qed.

Lemma window_slide {A : Type} (d : A) (l : list A) (n : nat) :
  forall k, (S n + k < List.length l)%nat ->
            firstn (S n) (skipn (S k) l)
            = tl (firstn (S n) (skipn k l)) ++ [nth (S n + k) l d].
Proof.
  induction l as [|a l IH]; intros k Hk; [cbn in Hk; lia|].
  destruct k as [|k].
  - cbn [skipn firstn tl]. rewrite Nat.add_0_r. cbn [nth].
    apply firstn_succ_snoc. cbn in Hk. lia.
  - change (skipn (S (S k)) (a :: l)) with (skipn (S k) l).
    change (skipn (S k) (a :: l)) with (skipn k l).
    rewrite IH by (cbn in Hk; lia).
    replace (S n + S k)%nat with (S (S n + k)) by lia. reflexivity.
Qed.

(** The windows slide by one point: for positive parameters, the window
    of an example is the window of the example before it without its
    first row, followed by the features of the next point of the feed. *)
Theorem build_examples_sliding (points : list Point.t) (I H : Z)
    (examples : list WindowExample.t) (k : nat) (e e' : WindowExample.t) :
  0 < I -> 0 < H ->
  build_examples points I H = Ok examples ->
  nth_error examples k = Some e ->
  nth_error examples (S k) = Some e' ->
  exists next,
    nth_error points (Z.to_nat I + k) = Some next
    /\ WindowExample.x e' = tl (WindowExample.x e) ++ [feature_vector next].
Proof.
  intros HI HH Hrun He He'.
  rewrite build_examples_closed in Hrun by assumption. injection Hrun as <-.
  pose proof (nth_error_Some_lt _ _ _ He') as Hk.
  rewrite length_map, range_length in Hk.
  rewrite example_of_nth_error in He, He' by lia.
  assert (Ee : e = example_of points I H (I + Z.of_nat k)) by congruence.
  assert (Ee' : e' = example_of points I H (I + Z.of_nat (S k))) by congruence.
  subst e e'. clear He He'.
  unfold Py.len in Hk.
  exists (nth (Z.to_nat I + k) points Point.empty).
  split; [apply nth_error_in_range; lia|].
  unfold example_of. cbn [WindowExample.x].
  destruct (slice_window points (I + Z.of_nat k - I) (I + Z.of_nat k))
    as [-> _]; [lia | unfold Py.len; lia |].
  destruct (slice_window points (I + Z.of_nat (S k) - I) (I + Z.of_nat (S k)))
    as [-> _]; [lia | unfold Py.len; lia |].
  replace (Z.to_nat (I + Z.of_nat k - (I + Z.of_nat k - I))) with (Z.to_nat I) by lia.
  replace (Z.to_nat (I + Z.of_nat (S k) - (I + Z.of_nat (S k) - I)))
    with (Z.to_nat I) by lia.
  replace (Z.to_nat (I + Z.of_nat k - I)) with k by lia.
  replace (Z.to_nat (I + Z.of_nat (S k) - I)) with (S k) by lia.
  destruct (Z.to_nat I) as [|n] eqn:HnI; [lia|].
  rewrite (window_slide Point.empty) by lia.
  rewrite map_app. cbn [map]. f_equal.
  destruct (firstn (S n) (skipn k points)); reflexivity.
Qed.

Lemma build_examples_sliding_witness :
  exists examples e e' next,
    build_examples (chronological_feed ++ reversed_feed) 2 1 = Ok examples
    /\ nth_error examples 0 = Some e
    /\ nth_error examples 1 = Some e'
    /\ nth_error (chronological_feed ++ reversed_feed) 2 = Some next
    /\ WindowExample.x e' = tl (WindowExample.x e) ++ [feature_vector next].
Proof.
  pose proof (build_examples_closed (chronological_feed ++ reversed_feed) 2 1
                ltac:(lia) ltac:(lia)) as Hrun.
  destruct (build_examples_sliding (chronological_feed ++ reversed_feed) 2 1 _ 0 _ _
              ltac:(lia) ltac:(lia) Hrun eq_refl eq_refl)
    as (next & Hnext & Hslide).
  do 4 eexists. split; [exact Hrun|].
  split; [reflexivity|]. split; [reflexivity|].
  split; [exact Hnext | exact Hslide].
Defined.

Lemma seq_offset (m n : nat) :
  seq m n = map (fun k => (m + k)%nat) (seq 0 n).
Proof.
  induction m as [|m IH].
  - cbn. now rewrite map_id.
  - rewrite <- seq_shift, IH, map_map. reflexivity.
Qed.

Lemma range_app (a b c : Z) :
  a <= b <= c -> Py.range a c = Py.range a b ++ Py.range b c.
Proof.
  intros Habc. unfold Py.range.
  replace (Z.to_nat (c - a)) with (Z.to_nat (b - a) + Z.to_nat (c - b))%nat by lia.
  rewrite seq_app, map_app. f_equal.
  cbn [Nat.add]. rewrite seq_offset, map_map.
  apply map_ext. intros k. lia.
Qed.

Lemma slice_prefix {A : Type} (l more : list A) (lo hi : Z) :
  0 <= lo <= hi -> hi <= Py.len l ->
  Py.slice (l ++ more) lo hi = Py.slice l lo hi.
Proof.
  intros Hlo Hhi.
  destruct (slice_window l lo hi Hlo Hhi) as [-> _].
  destruct (slice_window (l ++ more) lo hi Hlo) as [-> _].
  { unfold Py.len in *. rewrite length_app. lia. }
  unfold Py.len in Hhi.
  rewrite skipn_app, firstn_app, length_skipn.
  replace (Z.to_nat (hi - lo) - (List.length l - Z.to_nat lo))%nat with 0%nat by lia.
  cbn [firstn]. now rewrite app_nil_r.
Qed.

Lemma example_of_prefix (points more : list Point.t) (I H end_ : Z) :
  0 < I -> 0 < H -> I <= end_ < Py.len points - H ->
  example_of (points ++ more) I H end_ = example_of points I H end_.
Proof.
  intros HI HH Hend. unfold example_of.
  rewrite slice_prefix by lia.
  rewrite app_nth1 by (unfold Py.len in Hend; lia). reflexivity.
Qed.

(** Extending the feed only adds examples: for positive parameters, the
    examples of a feed are the first examples, in the same order and
    unchanged, of every feed that continues it. *)
Theorem build_examples_extend (points more : list Point.t) (I H : Z) :
  0 < I -> 0 < H ->
  exists examples extra,
    build_examples points I H = Ok examples
    /\ build_examples (points ++ more) I H = Ok (examples ++ extra).
Proof.
  intros HI HH. rewrite !build_examples_closed by assumption.
  assert (Hlen : Py.len (points ++ more) = Py.len points + Py.len more).
  { unfold Py.len. rewrite length_app. lia. }
  assert (Hmore : 0 <= Py.len more) by (unfold Py.len; lia).
  destruct (Z.le_gt_cases (Py.len points - H) I) as [Hnone|Hsome].
  - exists [], (map (example_of (points ++ more) I H)
                  (Py.range I (Py.len (points ++ more) - H))).
    rewrite (range_nil I (Py.len points - H)) by exact Hnone.
    split; reflexivity.
  - eexists. eexists. split; [reflexivity|].
    rewrite (range_app I (Py.len points - H) (Py.len (points ++ more) - H)) by lia.
    rewrite map_app. f_equal; f_equal.
    apply map_ext_in. intros end_ Hend. apply range_bounds in Hend.
    apply example_of_prefix; lia.
Qed.

Lemma build_examples_extend_witness :
  exists examples extra,
    build_examples chronological_feed 1 1 = Ok examples
    /\ build_examples (chronological_feed ++ reversed_feed) 1 1
       = Ok (examples ++ extra).
Proof. apply (build_examples_extend chronological_feed reversed_feed 1 1); lia. Defined.

(** ** Baseline trainer, further *)

Lemma comprehension_map {A B C : Type} (g : A -> B) (f : B -> result C)
    (l : list A) :
  comprehension f (map g l) = comprehension (fun a => f (g a)) l.
Proof.
  induction l as [|a l IH]; [reflexivity|].
  cbn [map comprehension]. now rewrite IH.
Qed.

Lemma comprehension_ext {A B : Type} (f g : A -> result B) (l : list A) :
  (forall a, f a = g a) -> comprehension f l = comprehension g l.
Proof.
  intros Hfg. induction l as [|a l IH]; [reflexivity|].
  cbn [comprehension]. now rewrite Hfg, IH.
Qed.

Lemma getitem_firstn_two (l : list float) :
  Py.getitem (firstn 2 l) 0 = Py.getitem l 0
  /\ Py.getitem (firstn 2 l) 1 = Py.getitem l 1.
Proof. destruct l as [|a [|b l]]; split; reflexivity. Qed.

Lemma train_on_first_two (rows : list WindowExample.t) :
  baseline_train (map first_two_targets rows) = baseline_train rows.
Proof.
  destruct rows as [|row rows]; [reflexivity|].
  unfold baseline_train. cbn [map].
  change (first_two_targets row :: map first_two_targets rows)
    with (map first_two_targets (row :: rows)).
  set (all := row :: rows).
  rewrite !comprehension_map.
  rewrite (comprehension_ext _ (fun r => Py.getitem (WindowExample.y r) 0))
    by (intros r; apply getitem_firstn_two).
  rewrite (comprehension_ext
             (fun r => Py.getitem (WindowExample.y (first_two_targets r)) 1)
             (fun r => Py.getitem (WindowExample.y r) 1))
    by (intros r; apply getitem_firstn_two).
  replace (Py.len (map first_two_targets all)) with (Py.len all)
    by (unfold Py.len; now rewrite length_map).
  reflexivity.
Qed.

(** The trainer reads nothing of an example but the first two components
    of its target: two lists of examples that agree on those give the
    same result, metrics or exception. *)
Theorem baseline_train_reads_targets (rows rows' : list WindowExample.t) :
  map (fun row => firstn 2 (WindowExample.y row)) rows
  = map (fun row => firstn 2 (WindowExample.y row)) rows' ->
  baseline_train rows = baseline_train rows'.
Proof.
  intros Hsame.
  rewrite <- (train_on_first_two rows), <- (train_on_first_two rows').
  f_equal. unfold first_two_targets.
  rewrite <- (map_map (fun row => firstn 2 (WindowExample.y row))
                (fun y => WindowExample.mk [] y EmptyString) rows).
  rewrite <- (map_map (fun row => firstn 2 (WindowExample.y row))
                (fun y => WindowExample.mk [] y EmptyString) rows').
  now rewrite Hsame.
Qed.

Lemma baseline_train_reads_targets_witness :
  baseline_train [WindowExample.mk [[1; 2]] [1; 2; 9] "a";
                  WindowExample.mk [] [3; 4] "b"]%float%string
  = baseline_train [target_row 1 2; target_row 3 4].
Proof. apply baseline_train_reads_targets. reflexivity. Defined.

Lemma getitem_short (l : list float) (k : nat) :
  (List.length l <= k)%nat -> Py.getitem l (Z.of_nat k) = Raise IndexError.
Proof.
  intros Hk. unfold Py.getitem.
  destruct (Z.ltb_spec (Z.of_nat k) 0); [lia|].
  destruct (Z.ltb_spec (Z.of_nat k) 0); [lia|].
  rewrite Nat2Z.id.
  destruct (nth_error l k) eqn:E; [|reflexivity].
  apply nth_error_Some_lt in E. lia.
Qed.

Lemma comprehension_raise {A B : Type} (f : A -> result B) (e : exn)
    (l : list A) :
  Forall (fun a => f a = Raise e \/ exists b, f a = Ok b) l ->
  Exists (fun a => f a = Raise e) l ->
  comprehension f l = Raise e.
Proof.
  induction 1 as [|a l Ha _ IH]; intros Hex; [inversion Hex|].
  cbn [comprehension].
  destruct Ha as [-> | (b & Hb)]; [reflexivity|].
  rewrite Hb. cbn [bind].
  inversion Hex as [? ? Hhead | ? ? Htail]; subst; [congruence|].
  now rewrite IH.
Qed.

Lemma getitem_raises_index_error (l : list float) (k : nat) :
  Py.getitem l (Z.of_nat k) = Raise IndexError
  \/ exists v, Py.getitem l (Z.of_nat k) = Ok v.
Proof.
  destruct (Nat.le_gt_cases (List.length l) k) as [Hshort|Hlong].
  - left. now apply getitem_short.
  - right. exists (nth k l 0%float).
    rewrite (getitem_in_range _ _ 0%float) by (unfold Py.len; lia).
    now rewrite Nat2Z.id.
Qed.

Lemma comprehension_getitem_short (k : nat) (rows : list WindowExample.t) :
  Exists (fun row => (List.length (WindowExample.y row) <= k)%nat) rows ->
  comprehension (fun row => Py.getitem (WindowExample.y row) (Z.of_nat k)) rows
  = Raise IndexError.
Proof.
  intros Hex. apply comprehension_raise.
  - apply Forall_forall. intros row _. apply getitem_raises_index_error.
  - eapply Exists_impl; [|exact Hex]. intros row Hrow. now apply getitem_short.
Qed.

Lemma train_short_target (rows : list WindowExample.t) :
  Exists short_target rows -> baseline_train rows = Raise IndexError.
Proof.
  intros Hex. destruct rows as [|row rows]; [inversion Hex|].
  unfold baseline_train. set (all := row :: rows) in *.
  destruct (Exists_dec (fun r => (List.length (WindowExample.y r) <= 0)%nat) all)
    as [Hempty|Hnonempty]; [intros r; apply le_dec|..].
  - pose proof (comprehension_getitem_short 0 all Hempty) as Hy0.
    change (Z.of_nat 0) with 0 in Hy0. rewrite Hy0. reflexivity.
  - assert (Hy0 : comprehension
                    (fun r => Py.getitem (WindowExample.y r) (Z.of_nat 0)) all
                  = Ok (component 0 all)).
    { apply comprehension_getitem. apply Forall_Exists_neg in Hnonempty.
      eapply Forall_impl; [|exact Hnonempty]. cbn. intros; lia. }
    assert (Hy1 : comprehension
                    (fun r => Py.getitem (WindowExample.y r) (Z.of_nat 1)) all
                  = Raise IndexError).
    { apply comprehension_getitem_short.
      eapply Exists_impl; [|exact Hex]. unfold short_target. intros; lia. }
    change (Z.of_nat 0) with 0 in Hy0. change (Z.of_nat 1) with 1 in Hy1.
    rewrite Hy0. cbn [bind]. rewrite Hy1. reflexivity.
Qed.

Lemma train_long_targets (rows : list WindowExample.t) :
  ~ Exists short_target rows ->
  baseline_train rows = Raise OverflowError
  \/ exists metrics, baseline_train rows = Ok metrics.
Proof.
  intros Hlong. apply Forall_Exists_neg in Hlong.
  rewrite <- train_on_first_two, baseline_train_closed.
  - destruct (map first_two_targets rows); [eauto|].
    destruct (squares_in_range _ && squares_in_range _); eauto.
  - apply Forall_map. eapply Forall_impl; [|exact Hlong].
    unfold short_target, first_two_targets. cbv beta. intros row Hrow.
    cbn [WindowExample.y]. rewrite length_firstn. lia.
Qed.

Lemma short_target_dec (rows : list WindowExample.t) :
  {Exists short_target rows} + {~ Exists short_target rows}.
Proof. apply Exists_dec. intros row. apply lt_dec. Qed.

Lemma float_of_len_nonzero (n : Z) :
  0 < n < 2 ^ 63 -> (Py.float_of_int n =? 0)%float = false.
Proof.
  intros Hn. pose proof (float_of_int_positive n Hn) as Hpos.
  rewrite eqb_spec. change (Prim2SF 0) with (S754_zero false).
  destruct (Prim2SF (Py.float_of_int n)) as [s|[]| |[] m e];
    cbn in Hpos; try contradiction; reflexivity.
Qed.

(** On rows that carry a list of floats as [y], which is what the build
    command writes: the trainer raises [IndexError] exactly when some row
    of a non-empty list has fewer than two components; [math.sqrt] never
    raises, its argument being a sum of squares that is never negative;
    the divisor [len(rows)] is never zero; so the only other exception is
    the [OverflowError] of [** 2]. *)
Theorem baseline_train_exceptions (rows : list WindowExample.t) :
  (baseline_train rows = Raise IndexError <-> Exists short_target rows)
  /\ baseline_train rows <> Raise ValueError
  /\ (rows <> [] -> Py.len rows < 2 ^ 63 ->
      (Py.float_of_int (Py.len rows) =? 0)%float = false)
  /\ (forall e, baseline_train rows = Raise e ->
                e = IndexError \/ e = OverflowError).
Proof.
  assert (Hall : forall e, baseline_train rows = Raise e ->
                           e = IndexError \/ e = OverflowError).
  { intros e Hraise. destruct (short_target_dec rows) as [Hshort|Hlong].
    - rewrite (train_short_target rows Hshort) in Hraise.
      injection Hraise as <-. now left.
    - destruct (train_long_targets rows Hlong) as [H|(metrics & H)];
        rewrite H in Hraise; [injection Hraise as <-; now right | discriminate]. }
  split; [split|split; [|split; [|exact Hall]]].
  - intros Hraise. destruct (short_target_dec rows) as [Hshort|Hlong]; [exact Hshort|].
    destruct (train_long_targets rows Hlong) as [H|(metrics & H)];
      rewrite H in Hraise; discriminate.
  - apply train_short_target.
  - intros Hraise. destruct (Hall _ Hraise); discriminate.
  - intros Hne Hmax. apply float_of_len_nonzero.
    destruct rows; [contradiction|]. unfold Py.len in *. cbn [List.length] in *. lia.
Qed.

Lemma baseline_train_exceptions_witness :
  baseline_train [target_row 1 2; WindowExample.mk [] [3%float] EmptyString]
  = Raise IndexError
  /\ (Py.float_of_int (Py.len [target_row 1 2; target_row 3 4]) =? 0)%float = false.
Proof.
  destruct (baseline_train_exceptions
              [target_row 1 2; WindowExample.mk [] [3%float] EmptyString])
    as [[_ Hshort] _].
  destruct (baseline_train_exceptions [target_row 1 2; target_row 3 4])
    as (_ & _ & Hdivisor & _).
  split.
  - apply Hshort. right. left. unfold short_target. cbn. lia.
  - apply Hdivisor; [discriminate | reflexivity].
Defined.

Lemma nonneg_sqrt (v : float) : nonneg v -> nonneg (PrimFloat.sqrt v).
Proof.
  unfold nonneg. rewrite sqrt_spec.
  destruct (Prim2SF v) as [s|s| |s m e]; cbn [has_sign]; intros Hs;
    try subst s; try exact I; try reflexivity.
  unfold SF64sqrt, SFsqrt.
  destruct (SFsqrt_core_binary _ _ _ _) as [[mz ez] lz].
  apply binary_round_aux_sign.
Qed.

(** What the trainer returns, when it returns: the sentinel for an empty
    list and for that alone; otherwise a loss that is never negative, the
    number of examples as [samples], no [message], and a [predict_mean]
    of two entries. *)
Theorem baseline_train_metrics (rows : list WindowExample.t)
    (metrics : ModelMetrics.t) :
  baseline_train rows = Ok metrics ->
  (rows = [] /\ metrics = no_data_metrics)
  \/ (rows <> []
      /\ exists loss mean0 mean1 : float,
           metrics = ModelMetrics.mk (Some loss) (Py.len rows) None
                       (Some [mean0; mean1])
           /\ (loss <? 0)%float = false
           /\ 0 < ModelMetrics.samples metrics).
Proof.
  intros Hrun. destruct rows as [|row rows].
  - left. split; [reflexivity|]. now injection Hrun as <-.
  - right. split; [discriminate|].
    destruct (short_target_dec (row :: rows)) as [Hshort|Hlong].
    { rewrite (train_short_target _ Hshort) in Hrun. discriminate. }
    apply Forall_Exists_neg in Hlong.
    rewrite <- train_on_first_two, baseline_train_closed in Hrun.
    2:{ apply Forall_map. eapply Forall_impl; [|exact Hlong].
        unfold short_target, first_two_targets. cbv beta. intros r Hr.
        cbn [WindowExample.y]. rewrite length_firstn. lia. }
    cbn [map] in Hrun.
    destruct (squares_in_range _ && squares_in_range _); [|discriminate].
    injection Hrun as <-.
    change (first_two_targets row :: map first_two_targets rows)
      with (map first_two_targets (row :: rows)).
    replace (Py.len (map first_two_targets (row :: rows)))
      with (Py.len (row :: rows)) by (unfold Py.len; now rewrite length_map).
    eexists. eexists. eexists. split; [reflexivity|]. split.
    + apply nonneg_not_negative, nonneg_sqrt, nonneg_add; apply nonneg_variance.
    + cbn [ModelMetrics.samples]. unfold Py.len. cbn [List.length]. lia.
Qed.

Lemma baseline_train_metrics_witness :
  exists loss mean0 mean1 : float,
    baseline_train [target_row 1 2; target_row 3 4]
    = Ok (ModelMetrics.mk (Some loss) 2 None (Some [mean0; mean1]))
    /\ (loss <? 0)%float = false.
Proof.
  destruct (baseline_train_metrics [target_row 1 2; target_row 3 4] _ eq_refl)
    as [[Hnil _] | (_ & loss & mean0 & mean1 & Hm & Hloss & _)];
    [discriminate|].
  exists loss, mean0, mean1. split; [|exact Hloss].
  change (Py.len [target_row 1 2; target_row 3 4]) with 2 in Hm.
  rewrite <- Hm. reflexivity.
Defined.

(** ** Dataset file, registry and the two commands *)

Lemma load_jsonl_loop_closed {Row : Type} (json_loads : string -> result Row)
    (lines : list string) :
  forall rows,
    load_jsonl_loop json_loads lines rows
    = (loaded <- comprehension json_loads
                   (map Py.strip (filter (fun line => negb (blank line)) lines)) ;;
       Ok (rows ++ loaded)).
Proof.
  induction lines as [|line lines IH]; intros rows.
  - cbn. now rewrite app_nil_r.
  - cbn [load_jsonl_loop filter]. unfold blank at 1.
    destruct (String.eqb (Py.strip line) EmptyString); cbn [negb]; [apply IH|].
    cbn [map comprehension].
    destruct (json_loads (Py.strip line)) as [row|e]; cbn [bind]; [|reflexivity].
    rewrite IH.
    destruct (comprehension json_loads _) as [loaded|e]; cbn [bind]; [|reflexivity].
    now rewrite <- app_assoc.
Qed.

(** [load_jsonl] decodes the stripped non-blank lines of the file in file
    order: it returns their rows in that order, or the exception of the
    first line that does not decode. *)
Theorem load_jsonl_closed {Row : Type} (json_loads : string -> result Row)
    (lines : list string) :
  load_jsonl json_loads (Some lines)
  = comprehension json_loads
      (map Py.strip (filter (fun line => negb (blank line)) lines)).
Proof.
  cbn [load_jsonl]. rewrite load_jsonl_loop_closed.
  destruct (comprehension json_loads _); reflexivity.
Qed.

Lemma load_written_lines (json_dumps : WindowExample.t -> string)
    (json_loads : string -> result WindowExample.t)
    (examples : list WindowExample.t) :
  (forall ex, In ex examples ->
              Py.strip (DatasetBuilder.line json_dumps ex) <> EmptyString
              /\ json_loads (Py.strip (DatasetBuilder.line json_dumps ex)) = Ok ex) ->
  forall rows,
    load_jsonl_loop json_loads (map (DatasetBuilder.line json_dumps) examples) rows
    = Ok (rows ++ examples).
Proof.
  induction examples as [|ex examples IH]; intros Hcodec rows.
  - cbn. now rewrite app_nil_r.
  - cbn [map load_jsonl_loop].
    destruct (Hcodec ex (or_introl eq_refl)) as [Hnonblank Hback].
    apply String.eqb_neq in Hnonblank. rewrite Hnonblank, Hback. cbn [bind].
    rewrite IH by (intros ex' Hin; apply Hcodec; now right).
    now rewrite <- app_assoc.
Qed.

(** The dataset written by the build command is what the train command
    loads: when [json.loads] gives back each built example from its
    stripped line (which is not empty), [main] of the builder writes one
    line per example and prints their number, and [load_jsonl] on those
    lines returns the examples, in order. *)
Theorem dataset_round_trip (json_dumps : WindowExample.t -> string)
    (json_loads : string -> result WindowExample.t)
    (args : DatasetBuilder.Args.t) (payload : Feed.t)
    (examples : list WindowExample.t) :
  build_examples (Py.get (Feed.points payload) [])
    (DatasetBuilder.Args.input_steps args)
    (DatasetBuilder.Args.horizon_steps args) = Ok examples ->
  (forall ex, In ex examples ->
              Py.strip (DatasetBuilder.line json_dumps ex) <> EmptyString
              /\ json_loads (Py.strip (DatasetBuilder.line json_dumps ex)) = Ok ex) ->
  exists lines,
    DatasetBuilder.main json_dumps args (Some (FeedDocument payload))
    = Returns (lines, Py.len examples)
    /\ Py.len lines = Py.len examples
    /\ load_jsonl json_loads (Some lines) = Ok examples.
Proof.
  intros Hbuild Hcodec. exists (map (DatasetBuilder.line json_dumps) examples).
  unfold DatasetBuilder.main. rewrite Hbuild. split; [reflexivity|]. split.
  - unfold Py.len. now rewrite length_map.
  - cbn [load_jsonl]. now rewrite load_written_lines.
Qed.

Lemma dataset_round_trip_witness :
  exists examples lines,
    build_examples chronological_feed 1 1 = Ok examples
    /\ DatasetBuilder.main stamp_dumps (DatasetBuilder.Args.mk "in" "out" 1 1)
         (Some (FeedDocument (Feed.mk (Some chronological_feed))))
       = Returns (lines, 2)
    /\ load_jsonl stamp_loads (Some lines) = Ok examples.
Proof.
  pose proof (build_examples_closed chronological_feed 1 1 ltac:(lia) ltac:(lia))
    as Hbuild.
  destruct (dataset_round_trip stamp_dumps stamp_loads
              (DatasetBuilder.Args.mk "in" "out" 1 1)
              (Feed.mk (Some chronological_feed)) _ Hbuild)
    as (lines & Hmain & _ & Hload).
  - intros ex Hin. vm_compute in Hin.
    destruct Hin as [<- | [<- | []]]; split;
      first [discriminate | vm_compute; reflexivity].
  - eexists. exists lines. split; [exact Hbuild|]. split; [exact Hmain | exact Hload].
Defined.

Lemma update_registry_all_models (entries : list ModelRecord.t) :
  forall registry : option Registry.t,
  exists file' doc',
    update_registry_all (option_map Document registry) entries = Ok file'
    /\ read_registry file' = Ok doc'
    /\ Py.get (Registry.models doc') [] = models_of registry ++ entries.
Proof.
  induction entries as [|entry entries IH]; intros registry.
  - destruct registry as [doc|]; cbn; eexists; eexists; repeat split;
      now rewrite app_nil_r.
  - cbn [update_registry_all].
    assert (Hstep : update_registry (option_map Document registry) entry
                    = Ok (option_map Document
                            (Some (Registry.mk (Some (models_of registry ++ [entry])))))).
    { destruct registry; reflexivity. }
    rewrite Hstep. cbn [bind].
    destruct (IH (Some (Registry.mk (Some (models_of registry ++ [entry])))))
      as (file' & doc' & Hrun & Hread & Hmodels).
    exists file', doc'. split; [exact Hrun|]. split; [exact Hread|].
    rewrite Hmodels. cbn. now rewrite <- app_assoc.
Qed.

(** The registry is an append-only log: from a registry file that is
    missing or holds a registry document (a JSON object whose ["models"],
    when the key is there, is a list), any number of [update_registry]
    calls succeed,
    and the registry read afterwards holds the models it held before, in
    their order, followed by the appended records in call order, repeated
    versions included. *)
Theorem registry_log (registry : option Registry.t)
    (entries : list ModelRecord.t) :
  exists file' doc',
    update_registry_all (option_map Document registry) entries = Ok file'
    /\ read_registry file' = Ok doc'
    /\ Py.get (Registry.models doc') [] = models_of registry ++ entries
    /\ Py.len (Py.get (Registry.models doc') [])
       = Py.len (models_of registry) + Py.len entries.
Proof.
  destruct (update_registry_all_models entries registry)
    as (file' & doc' & Hrun & Hread & Hmodels).
  exists file', doc'. repeat split; try assumption.
  rewrite Hmodels. unfold Py.len. rewrite length_app. lia.
Qed.

Lemma main_inversion (json_loads : string -> result WindowExample.t)
    (args : Args.t) (now : datetime) (fs fs' : Files.t) (entry : ModelRecord.t) :
  main json_loads args now fs = Ok (fs', entry) ->
  exists rows metrics registry,
    load_jsonl json_loads (Files.dataset_file fs) = Ok rows
    /\ baseline_train rows = Ok metrics
    /\ Files.registry_file fs = option_map Document registry
    /\ entry = ModelRecord.mk (Args.model_version args) now (Args.epochs args)
                 metrics (Args.dataset args) "ready"%string
    /\ fs' = Files.mk (Files.dataset_file fs)
               (Some (Document
                        (Registry.mk (Some (models_of registry ++ [entry]))))).
Proof.
  unfold main. intros Hrun.
  destruct (load_jsonl json_loads (Files.dataset_file fs)) as [rows|e] eqn:Hload;
    cbn [bind] in Hrun; [|discriminate].
  destruct (baseline_train rows) as [metrics|e] eqn:Htrain;
    cbn [bind] in Hrun; [|discriminate].
  destruct (Files.registry_file fs) as [[|doc]|] eqn:Hreg; cbn in Hrun;
    [discriminate | |]; injection Hrun as <- <-.
  - exists rows, metrics, (Some doc). repeat split; first [assumption | reflexivity].
  - exists rows, metrics, None. repeat split; first [assumption | reflexivity].
Qed.

(** A successful run of the train command leaves the dataset file as it
    was and the registry one record longer: the models it held, followed
    by the record that is printed, which has status ["ready"], the
    version, epochs and dataset path of the command line, the call time,
    and the metrics of the loaded rows. *)
Theorem main_appends_printed_record
    (json_loads : string -> result WindowExample.t)
    (args : Args.t) (now : datetime) (fs fs' : Files.t) (entry : ModelRecord.t) :
  main json_loads args now fs = Ok (fs', entry) ->
  Files.dataset_file fs' = Files.dataset_file fs
  /\ ModelRecord.status entry = "ready"%string
  /\ ModelRecord.version entry = Args.model_version args
  /\ ModelRecord.epochs entry = Args.epochs args
  /\ ModelRecord.dataset entry = Args.dataset args
  /\ ModelRecord.trained_at entry = now
  /\ (exists rows,
        load_jsonl json_loads (Files.dataset_file fs) = Ok rows
        /\ baseline_train rows = Ok (ModelRecord.metrics entry))
  /\ (exists before after,
        read_registry (Files.registry_file fs) = Ok before
        /\ read_registry (Files.registry_file fs') = Ok after
        /\ Registry.models after
           = Some (Py.get (Registry.models before) [] ++ [entry])).
Proof.
  intros Hrun.
  destruct (main_inversion _ _ _ _ _ _ Hrun)
    as (rows & metrics & registry & Hload & Htrain & Hreg & -> & ->).
  cbn [Files.dataset_file Files.registry_file ModelRecord.status
       ModelRecord.version ModelRecord.epochs ModelRecord.dataset
       ModelRecord.trained_at ModelRecord.metrics].
  repeat (split; [reflexivity|]). split; [now exists rows|].
  rewrite Hreg. destruct registry as [doc|]; cbn; eexists; eexists;
    repeat split; reflexivity.
Qed.

Lemma main_appends_printed_record_witness :
  exists fs' entry before after,
    main stamp_loads (Args.mk "data.jsonl" "registry.json" "v1" 20) 5
      (Files.mk (Some ["2024-05-10T00:00:05Z"%string]) None)
    = Ok (fs', entry)
    /\ read_registry None = Ok before
    /\ read_registry (Files.registry_file fs') = Ok after
    /\ Registry.models after = Some (Py.get (Registry.models before) [] ++ [entry])
    /\ ModelRecord.status entry = "ready"%string.
Proof.
  eexists. eexists.
  destruct (main_appends_printed_record stamp_loads
              (Args.mk "data.jsonl" "registry.json" "v1" 20) 5
              (Files.mk (Some ["2024-05-10T00:00:05Z"%string]) None) _ _ eq_refl)
    as (_ & Hstatus & _ & _ & _ & _ & _ & before & after & Hb & Ha & Hmodels).
  exists before, after. split; [reflexivity|].
  split; [exact Hb|]. split; [exact Ha|]. split; [exact Hmodels | exact Hstatus].
Defined.

(** Training again appends again: after a successful run, a second run
    on the files it left succeeds too, whatever the call time, and the
    registry then ends with the records of the two runs, in order, equal
    but for their [trained_at]; the earlier record is kept even though
    the version is the same. *)
Theorem main_twice (json_loads : string -> result WindowExample.t)
    (args : Args.t) (now now' : datetime) (fs fs1 : Files.t)
    (entry1 : ModelRecord.t) :
  main json_loads args now fs = Ok (fs1, entry1) ->
  exists fs2 entry2 before,
    main json_loads args now' fs1 = Ok (fs2, entry2)
    /\ read_registry (Files.registry_file fs) = Ok before
    /\ read_registry (Files.registry_file fs2)
       = Ok (Registry.mk
               (Some (Py.get (Registry.models before) [] ++ [entry1; entry2])))
    /\ entry2 = ModelRecord.mk (ModelRecord.version entry1) now'
                  (ModelRecord.epochs entry1) (ModelRecord.metrics entry1)
                  (ModelRecord.dataset entry1) (ModelRecord.status entry1).
Proof.
  intros Hrun.
  destruct (main_inversion _ _ _ _ _ _ Hrun)
    as (rows & metrics & registry & Hload & Htrain & Hreg & -> & ->).
  unfold main. cbn [Files.dataset_file Files.registry_file].
  rewrite Hload. cbn [bind]. rewrite Htrain.
  cbn [bind update_registry read_registry Py.get Registry.models].
  eexists. eexists. exists (match registry with
                            | Some doc => doc
                            | None => Registry.mk (Some [])
                            end).
  split; [reflexivity|]. rewrite Hreg.
  split; [destruct registry; reflexivity|]. split; [|reflexivity].
  cbn [Files.registry_file read_registry]. rewrite <- app_assoc.
  destruct registry as [doc|]; reflexivity.
Qed.

Lemma main_twice_witness :
  exists fs1 entry1 fs2 entry2,
    main stamp_loads (Args.mk "data.jsonl" "registry.json" "v1" 20) 5
      (Files.mk None None) = Ok (fs1, entry1)
    /\ main stamp_loads (Args.mk "data.jsonl" "registry.json" "v1" 20) 9 fs1
       = Ok (fs2, entry2)
    /\ read_registry (Files.registry_file fs2)
       = Ok (Registry.mk (Some [entry1; entry2])).
Proof.
  eexists. eexists.
  destruct (main_twice stamp_loads
              (Args.mk "data.jsonl" "registry.json" "v1" 20) 5 9
              (Files.mk None None) _ _ eq_refl)
    as (fs2 & entry2 & before & Hrun2 & Hbefore & Hread & _).
  exists fs2, entry2. split; [reflexivity|]. split; [exact Hrun2|].
  injection Hbefore as <-. exact Hread.
Defined.

(** With positive steps the build command does not fail on an input file
    that holds a feed object, that is a JSON object whose ["points"],
    when the key is there, is a list of telemetry points: it writes
    [max(0, N - I - H)] lines and prints that number, [N] being the
    number of points, zero when the object has no ["points"] key; a feed
    of at most [I + H] points gives an empty dataset file. *)
Theorem dataset_builder_main_count (json_dumps : WindowExample.t -> string)
    (args : DatasetBuilder.Args.t) (payload : Feed.t) :
  0 < DatasetBuilder.Args.input_steps args ->
  0 < DatasetBuilder.Args.horizon_steps args ->
  let count :=
    Z.max 0 (Py.len (Py.get (Feed.points payload) [])
             - DatasetBuilder.Args.input_steps args
             - DatasetBuilder.Args.horizon_steps args) in
  exists lines,
    DatasetBuilder.main json_dumps args (Some (FeedDocument payload))
    = Returns (lines, count)
    /\ Py.len lines = count
    /\ (count = 0 -> lines = []).
Proof.
  intros HI HH count. unfold DatasetBuilder.main.
  rewrite build_examples_closed by assumption.
  assert (Hlen : Py.len (map (example_of (Py.get (Feed.points payload) [])
                               (DatasetBuilder.Args.input_steps args)
                               (DatasetBuilder.Args.horizon_steps args))
                          (Py.range (DatasetBuilder.Args.input_steps args)
                             (Py.len (Py.get (Feed.points payload) [])
                              - DatasetBuilder.Args.horizon_steps args)))
                 = count).
  { unfold Py.len at 1. rewrite length_map, range_length. subst count. lia. }
  eexists. rewrite Hlen. split; [reflexivity|]. split.
  - unfold Py.len at 1. rewrite length_map. exact Hlen.
  - intros Hzero. rewrite range_nil by (subst count; lia). reflexivity.
Qed.

Lemma dataset_builder_main_count_witness :
  (exists lines,
      DatasetBuilder.main stamp_dumps (DatasetBuilder.Args.mk "in" "out" 1 1)
        (Some (FeedDocument (Feed.mk (Some chronological_feed))))
      = Returns (lines, 2)
      /\ Py.len lines = 2)
  /\ DatasetBuilder.main stamp_dumps (DatasetBuilder.Args.mk "in" "out" 24 12)
       (Some (FeedDocument (Feed.mk None)))
     = Returns ([], 0).
Proof.
  split.
  - destruct (dataset_builder_main_count stamp_dumps
                (DatasetBuilder.Args.mk "in" "out" 1 1)
                (Feed.mk (Some chronological_feed)))
      as (lines & Hmain & Hlen & _); [reflexivity | reflexivity |].
    exists lines. split; [exact Hmain | exact Hlen].
  - destruct (dataset_builder_main_count stamp_dumps
                (DatasetBuilder.Args.mk "in" "out" 24 12) (Feed.mk None))
      as (lines & Hmain & _ & Hempty); [reflexivity | reflexivity |].
    rewrite Hmain, Hempty; reflexivity.
Defined.

(** ** Calculator *)

Lemma nonneg_mul (a b : float) : nonneg a -> nonneg b -> nonneg (a * b).
Proof.
  unfold nonneg. rewrite mul_spec.
  destruct (Prim2SF a) as [sa|sa| |sa ma ea], (Prim2SF b) as [sb|sb| |sb mb eb];
    cbn [has_sign]; intros Ha Hb; try subst sa; try subst sb;
    try exact I; try reflexivity.
  unfold SF64mul, SFmul. apply binary_round_aux_sign.
Qed.

(** A float the guard [v <= 0] lets through is NaN or above zero. *)
Lemma above_zero (v : float) :
  (v <=? 0)%float = false -> nonneg v /\ (v =? 0)%float = false.
Proof.
  unfold nonneg. rewrite leb_spec, eqb_spec.
  change (Prim2SF 0) with (S754_zero false).
  destruct (Prim2SF v) as [s|[]| |[] m e]; cbn; intros H;
    first [discriminate | split; reflexivity | split; [exact I | reflexivity]].
Qed.

(** [escape_velocity] fails only through its two guards: once the mass
    and the radius are let through, the division and the square root
    raise nothing, and the velocity returned is never negative. *)
Theorem escape_velocity_total (mass_kg radius_m : float) :
  (mass_kg <=? 0)%float = false -> (radius_m <=? 0)%float = false ->
  exists velocity,
    AstroCalc.escape_velocity mass_kg radius_m = Returns velocity
    /\ (velocity <? 0)%float = false.
Proof.
  intros Hmass Hradius. unfold AstroCalc.escape_velocity.
  rewrite Hmass, Hradius.
  destruct (above_zero _ Hmass) as [Hm _].
  destruct (above_zero _ Hradius) as [Hr Hr0].
  unfold AstroCalc.truediv. rewrite Hr0.
  assert (Hq : nonneg (2.0 * AstroCalc.G * mass_kg / radius_m)).
  { apply nonneg_div; [|exact Hr]. apply nonneg_mul; [reflexivity | exact Hm]. }
  unfold AstroCalc.math_sqrt. rewrite (nonneg_not_negative _ Hq).
  eexists. split; [reflexivity|].
  now apply nonneg_not_negative, nonneg_sqrt.
Qed.

Lemma escape_velocity_total_witness :
  exists velocity,
    AstroCalc.escape_velocity 5.972e24 6.371e6 = Returns velocity
    /\ (velocity <? 0)%float = false
    /\ (11185 <? velocity)%float = true /\ (velocity <? 11187)%float = true.
Proof.
  destruct (AstroCalc.escape_velocity 5.972e24 6.371e6) as [velocity|e] eqn:Hrun;
    [|vm_compute in Hrun; discriminate].
  destruct (escape_velocity_total 5.972e24 6.371e6 eq_refl eq_refl)
    as (velocity' & Hrun' & Hsign).
  rewrite Hrun in Hrun'. injection Hrun' as <-.
  exists velocity. split; [reflexivity|]. split; [exact Hsign|].
  vm_compute in Hrun. injection Hrun as <-. split; reflexivity.
Defined.

(** [schwarzschild_radius] fails only through its guard, with the
    message of the guard, and the radius it returns is never negative. *)
Theorem schwarzschild_radius_total (mass_kg : float) :
  ((mass_kg <=? 0)%float = true ->
   AstroCalc.schwarzschild_radius mass_kg
   = Throws (AstroCalc.ValueError "mass_kg must be > 0"))
  /\ ((mass_kg <=? 0)%float = false ->
      exists radius,
        AstroCalc.schwarzschild_radius mass_kg = Returns radius
        /\ (radius <? 0)%float = false).
Proof.
  unfold AstroCalc.schwarzschild_radius. split; intros Hmass; rewrite Hmass;
    [reflexivity|].
  destruct (above_zero _ Hmass) as [Hm _].
  unfold AstroCalc.truediv.
  change (AstroCalc.C * AstroCalc.C =? 0)%float with false.
  eexists. split; [reflexivity|].
  apply nonneg_not_negative, nonneg_div; [|reflexivity].
  apply nonneg_mul; [reflexivity | exact Hm].
Qed.

(** The guard of [flux_from_luminosity] does not protect its division:
    there is a positive distance, let through by the guard, at which the
    denominator underflows to zero and the call raises
    [ZeroDivisionError] for every luminosity, while [luminosity_from_flux],
    which multiplies, returns for the same distance. *)
Theorem flux_zero_division :
  exists distance_m : float,
    (0 <? distance_m)%float = true
    /\ (forall luminosity_w,
          AstroCalc.flux_from_luminosity luminosity_w distance_m
          = Throws AstroCalc.ZeroDivisionError)
    /\ (forall flux_w_m2, exists luminosity_w,
          AstroCalc.luminosity_from_flux flux_w_m2 distance_m
          = Returns luminosity_w).
Proof.
  exists 1e-200%float. split; [reflexivity|]. split.
  - intros luminosity_w. reflexivity.
  - intros flux_w_m2. eexists. reflexivity.
Qed.

Lemma schwarzschild_radius_total_witness :
  (exists radius,
      AstroCalc.schwarzschild_radius 1.98847e30 = Returns radius
      /\ (radius <? 0)%float = false)
  /\ AstroCalc.schwarzschild_radius (-0)
     = Throws (AstroCalc.ValueError "mass_kg must be > 0").
Proof.
  destruct (schwarzschild_radius_total 1.98847e30) as [_ Hreturns].
  destruct (schwarzschild_radius_total (-0)) as [Hthrows _].
  split; [apply Hreturns | apply Hthrows]; reflexivity.
Defined.

(** [low_z_velocity] fails only through its guard, which lets [-0.0] and
    NaN through; the velocity it returns is never negative. *)
Theorem low_z_velocity_total (z : float) :
  ((z <? 0)%float = true ->
   AstroCalc.low_z_velocity z = Throws (AstroCalc.ValueError "z must be >= 0"))
  /\ ((z <? 0)%float = false ->
      AstroCalc.low_z_velocity z = Returns (z * AstroCalc.C)%float
      /\ (z * AstroCalc.C <? 0)%float = false).
Proof.
  unfold AstroCalc.low_z_velocity. split; intros Hz; rewrite Hz; [reflexivity|].
  split; [reflexivity|].
  revert Hz. rewrite !ltb_spec, mul_spec.
  change (Prim2SF 0) with (S754_zero false).
  pose proof (binary_round_aux_sign false) as Hround.
  assert (HC : exists m e, Prim2SF AstroCalc.C = S754_finite false m e)
    by (vm_compute; eauto).
  destruct HC as (mC & eC & ->).
  destruct (Prim2SF z) as [s|[]| |[] m e]; cbn; intros Hz;
    try discriminate; try reflexivity.
  specialize (Hround (Z.pos (m * mC)) (e + eC)%Z loc_Exact).
  destruct (binary_round_aux _ _ _ _ _ _) as [s'|s'| |s' m' e'];
    cbn in Hround |- *; try subst s'; reflexivity.
Qed.

Lemma low_z_velocity_total_witness :
  AstroCalc.low_z_velocity (-0) = Returns (-0 * AstroCalc.C)%float
  /\ AstroCalc.low_z_velocity (-0.01)
     = Throws (AstroCalc.ValueError "z must be >= 0").
Proof.
  destruct (low_z_velocity_total (-0)) as [_ Hreturns].
  destruct (low_z_velocity_total (-0.01)) as [Hthrows _].
  split; [apply Hreturns | apply Hthrows]; reflexivity.
Defined.
